(** * API-key rotation for load-balancer header rules

    A shallow embedding of [SecretsManagerAlb/alb_apikeys_rotator/lambda_function.py]
    and the properties of its rotation steps.

    Layout:
    - [PyStr]: the string operations of Python the function relies on;
    - [Json]: the values, the encoder and the decoder of Python's [json];
    - [Effects]: the calls to Secrets Manager, to the load-balancer control
      plane, to the process environment and to the random generator, as a
      tree of calls that any environment can answer;
    - [Rotator]: the functions of [lambda_function.py], in source order;
    - [Fake]: an in-memory environment, used to run the functions on
      concrete inputs;
    - [Observe]: the vocabulary of the statements;
    - [RunLemmas], [TextLemmas], [SyncLemmas], [StepLemmas]: the lemmas;
    - the theorems on the rotation steps, the entry point and the rule
      synchronizer. *)

From Stdlib Require Import String Ascii List ZArith Lia Bool DecimalString.
From stdpp Require Import base list strings.
Import ListNotations.
Open Scope string_scope.
Open Scope list_scope.

(** * Python strings

    A Python [str] is modelled by a Rocq [string]: a sequence of 8-bit code
    points (the Basic Latin and Latin-1 blocks of Unicode). *)

Module PyStr.

Definition dquote : ascii := "034"%char.
Definition backslash : ascii := "\"%char.
Definition apostrophe : ascii := "'"%char.

Definition code (c : ascii) : N := N_of_ascii c.

(** [s.replace(old, new)] for a one-character [old]. *)
Fixpoint replace (old : ascii) (new : string) (s : string) : string :=
  match s with
  | EmptyString => EmptyString
  | String c r =>
      if Ascii.eqb c old then new +:+ replace old new r
      else String c (replace old new r)
  end.

(** [s.lower()]: the capital letters of both blocks are 32 below their
    small letters; U+00D7 (the multiplication sign) sits among them and is
    not a letter. *)
Definition lower_char (c : ascii) : ascii :=
  let n := code c in
  if ((65 <=? n) && (n <=? 90) || (192 <=? n) && (n <=? 222) && negb (n =? 215))%N
  then ascii_of_N (n + 32) else c.

Fixpoint lower (s : string) : string :=
  match s with
  | EmptyString => EmptyString
  | String c r => String (lower_char c) (lower r)
  end.

(** [needle in hay] on two strings: substring test. *)
Fixpoint contains (needle hay : string) : bool :=
  String.prefix needle hay ||
  match hay with
  | EmptyString => false
  | String _ r => contains needle r
  end.

(** Every character of [s] satisfies [p]. *)
Fixpoint all_chars (p : ascii -> bool) (s : string) : bool :=
  match s with
  | EmptyString => true
  | String c r => p c && all_chars p r
  end.

(** [c in s] for a character [c]. *)
Fixpoint mem_char (c : ascii) (s : string) : bool :=
  match s with
  | EmptyString => false
  | String d r => Ascii.eqb c d || mem_char c r
  end.

(** [s[i]] with a default for an index out of range. *)
Fixpoint char_at (i : nat) (s : string) (d : ascii) : ascii :=
  match s, i with
  | EmptyString, _ => d
  | String c _, O => c
  | String _ r, S j => char_at j r d
  end.

(** [string.ascii_uppercase], [string.ascii_lowercase], [string.digits]. *)
Definition ascii_uppercase : string := "ABCDEFGHIJKLMNOPQRSTUVWXYZ".
Definition ascii_lowercase : string := "abcdefghijklmnopqrstuvwxyz".
Definition digits : string := "0123456789".

End PyStr.

(** * Exceptions and results

    The exceptions the function meets.  [Unmodelled] is none of Python's: it
    ends a run at the point where the program handles data this development
    leaves out (see the JSON decoder), and says nothing of what the program
    does from there. *)

Inductive exn : Type :=
| ResourceNotFoundException
| ClientError (code : string)
| KeyError (key : string)
| TypeError
| IndexError
| ValueError (msg : string)
| JSONDecodeError
| Unmodelled.

Inductive outcome (A : Type) : Type :=
| Ok (a : A)
| Raised (e : exn).
Arguments Ok {A} a.
Arguments Raised {A} e.

Definition is_ok {A} (o : outcome A) : bool :=
  match o with Ok _ => true | Raised _ => false end.

(** * JSON

    The values [json.loads] builds and [json.dumps] prints.  Numbers are the
    integers and a string holds 8-bit code points: a number with a fraction
    or an exponent, [NaN], the infinities and a [\uXXXX] escape above U+00FF
    are left out.  The decoder reports a text with one of them as
    [Raised Unmodelled]. *)

Module Json.
Import PyStr.

#[warnings="-register-all"]
Inductive json : Type :=
| JNull
| JBool (b : bool)
| JInt (z : Z)
| JStr (s : string)
| JArr (l : list json)
| JObj (m : list (string * json)).

(** ** Python dictionaries with string keys, in insertion order *)

Fixpoint dict_get {V} (k : string) (d : list (string * V)) : option V :=
  match d with
  | [] => None
  | (k', v) :: r => if String.eqb k k' then Some v else dict_get k r
  end.

(** [d[k] = v]: the value of an existing key is replaced where it stands, a
    new key goes to the end. *)
Fixpoint dict_set {V} (k : string) (v : V) (d : list (string * V)) : list (string * V) :=
  match d with
  | [] => [(k, v)]
  | (k', v') :: r =>
      if String.eqb k k' then (k', v) :: r else (k', v') :: dict_set k v r
  end.

(** [v[k]] for a string [k]: only a dictionary can be indexed by a string. *)
Definition subscript (v : json) (k : string) : outcome json :=
  match v with
  | JObj m => match dict_get k m with Some x => Ok x | None => Raised (KeyError k) end
  | _ => Raised TypeError
  end.

(** ** The encoder: [json.dumps] with its default separators and
    [ensure_ascii] *)

Definition hex_digit (n : N) : ascii :=
  char_at (N.to_nat n) "0123456789abcdef" "0"%char.

(** The characters printed as they are: the printable ASCII range but the
    double quote and the backslash. *)
Definition unescaped (c : ascii) : bool :=
  ((32 <=? code c) && (code c <=? 126))%N
  && negb (Ascii.eqb c dquote) && negb (Ascii.eqb c backslash).

Definition escape_char (c : ascii) : string :=
  if unescaped c then String c ""
  else if Ascii.eqb c dquote then String backslash (String dquote "")
  else if Ascii.eqb c backslash then String backslash (String backslash "")
  else if (code c =? 8)%N then "\b"
  else if (code c =? 12)%N then "\f"
  else if (code c =? 10)%N then "\n"
  else if (code c =? 13)%N then "\r"
  else if (code c =? 9)%N then "\t"
  else "\u00" +:+ String (hex_digit (code c / 16)) (String (hex_digit (code c mod 16)) "").

Fixpoint escape (s : string) : string :=
  match s with
  | EmptyString => EmptyString
  | String c r => escape_char c +:+ escape r
  end.

Definition encode_string (s : string) : string :=
  String dquote (escape s +:+ String dquote "").

(** [sep.join(l)] *)
Fixpoint join (sep : string) (l : list string) : string :=
  match l with
  | [] => ""
  | [x] => x
  | x :: r => x +:+ sep +:+ join sep r
  end.

Fixpoint dumps (v : json) : string :=
  match v with
  | JNull => "null"
  | JBool true => "true"
  | JBool false => "false"
  | JInt z => NilZero.string_of_int (Z.to_int z)
  | JStr s => encode_string s
  | JArr l => "[" +:+ join ", " (List.map dumps l) +:+ "]"
  | JObj m =>
      "{" +:+ join ", " (List.map (fun kv => encode_string (fst kv) +:+ ": " +:+ dumps (snd kv)) m) +:+ "}"
  end.

(** ** The decoder: [json.loads] *)

Definition is_ws (c : ascii) : bool :=
  ((code c =? 32) || (code c =? 9) || (code c =? 10) || (code c =? 13))%N.

Fixpoint skip_ws (s : string) : string :=
  match s with
  | String c r => if is_ws c then skip_ws r else s
  | EmptyString => EmptyString
  end.

Definition is_digit (c : ascii) : bool := ((48 <=? code c) && (code c <=? 57))%N.

Definition hex_value (c : ascii) : option N :=
  let n := code c in
  if ((48 <=? n) && (n <=? 57))%N then Some (n - 48)%N
  else if ((97 <=? n) && (n <=? 102))%N then Some (n - 87)%N
  else if ((65 <=? n) && (n <=? 70))%N then Some (n - 55)%N
  else None.

Definition hex4 (a b c d : ascii) : option N :=
  match hex_value a, hex_value b, hex_value c, hex_value d with
  | Some x, Some y, Some z, Some t => Some (((x * 16 + y) * 16 + z) * 16 + t)%N
  | _, _, _, _ => None
  end.

(** The character a one-letter escape stands for. *)
Definition unescape (e : ascii) : option ascii :=
  if Ascii.eqb e dquote then Some dquote
  else if Ascii.eqb e backslash then Some backslash
  else if Ascii.eqb e "/" then Some "/"%char
  else if Ascii.eqb e "b" then Some (ascii_of_N 8)
  else if Ascii.eqb e "f" then Some (ascii_of_N 12)
  else if Ascii.eqb e "n" then Some (ascii_of_N 10)
  else if Ascii.eqb e "r" then Some (ascii_of_N 13)
  else if Ascii.eqb e "t" then Some (ascii_of_N 9)
  else None.

(** What a scanner finds at the head of a text: a value and the text left
    after it; a text that [json.loads] rejects with [JSONDecodeError]; or a
    construct that [json.loads] reads and this development leaves out (a
    number with a fraction or an exponent, [NaN], an infinity, a [\uXXXX]
    escape above U+00FF). *)
Inductive scan (A : Type) : Type :=
| Scanned (a : A) (rest : string)
| Malformed
| Beyond.
Arguments Scanned {A} a rest.
Arguments Malformed {A}.
Arguments Beyond {A}.

Definition cons_char (c : ascii) (p : scan string) : scan string :=
  match p with
  | Scanned s rest => Scanned (String c s) rest
  | Malformed => Malformed
  | Beyond => Beyond
  end.

(** The body of a string, after its opening quote, up to the closing one
    (strict mode: a raw control character is an error). *)
Fixpoint scanstring (s : string) : scan string :=
  match s with
  | EmptyString => Malformed
  | String c r =>
      if Ascii.eqb c dquote then Scanned "" r
      else if Ascii.eqb c backslash then
        match r with
        | EmptyString => Malformed
        | String e r1 =>
            if Ascii.eqb e "u" then
              match r1 with
              | String h1 (String h2 (String h3 (String h4 r2))) =>
                  match hex4 h1 h2 h3 h4 with
                  | Some n => if (n <? 256)%N then cons_char (ascii_of_N n) (scanstring r2) else Beyond
                  | None => Malformed
                  end
              | _ => Malformed
              end
            else
              match unescape e with
              | Some c' => cons_char c' (scanstring r1)
              | None => Malformed
              end
        end
      else if (code c <? 32)%N then Malformed
      else cons_char c (scanstring r)
  end.

(** The digits at the head of [s], read in base ten onto [acc]. *)
Fixpoint scan_digits (s : string) (acc : Z) : Z * string :=
  match s with
  | String c r =>
      if is_digit c then scan_digits r (acc * 10 + Z.of_N (code c - 48)) else (acc, s)
  | EmptyString => (acc, s)
  end.

Definition starts_with_digit (s : string) : bool :=
  match s with String c _ => is_digit c | EmptyString => false end.

(** What follows the integer part makes the number a float. *)
Definition float_suffix (s : string) : bool :=
  match s with
  | String c r =>
      if Ascii.eqb c "." then starts_with_digit r
      else if Ascii.eqb c "e" || Ascii.eqb c "E" then
        match r with
        | String d r1 =>
            if Ascii.eqb d "+" || Ascii.eqb d "-" then starts_with_digit r1 else is_digit d
        | EmptyString => false
        end
      else false
  | EmptyString => false
  end.

(** An optional minus sign, then a lone zero or a digit run that does not
    start with zero, at the head of [s]. *)
Definition scan_int (s : string) : option (Z * string) :=
  let (neg, body) :=
    match s with
    | String c r => if Ascii.eqb c "-" then (true, r) else (false, s)
    | EmptyString => (false, s)
    end in
  match body with
  | String d r =>
      if Ascii.eqb d "0" then Some (0%Z, r)
      else if is_digit d then
        let (n, rest) := scan_digits body 0 in
        Some (if neg then (- n)%Z else n, rest)
      else None
  | EmptyString => None
  end.

(** [s] without the prefix [p], when it starts with it. *)
Fixpoint strip_prefix (p s : string) : option string :=
  match p, s with
  | EmptyString, _ => Some s
  | String a p', String b s' => if Ascii.eqb a b then strip_prefix p' s' else None
  | String _ _, EmptyString => None
  end.

Definition has_prefix (p s : string) : bool :=
  match strip_prefix p s with Some _ => true | None => false end.

(** A number, or one of the three names [json.loads] reads as floats where
    no number starts. *)
Definition scan_number (s : string) : scan json :=
  match scan_int s with
  | Some (n, rest) => if float_suffix rest then Beyond else Scanned (JInt n) rest
  | None =>
      if has_prefix "NaN" s || has_prefix "Infinity" s || has_prefix "-Infinity" s
      then Beyond else Malformed
  end.

Definition literal (p : string) (v : json) (s : string) : scan json :=
  match strip_prefix p s with
  | Some rest => Scanned v rest
  | None => Malformed
  end.

(** The scanner.  Every call spends one unit of [fuel]; a value of [n]
    characters needs at most [2 * n] calls, and a scan that ran out of fuel
    would say nothing of the text. *)
Fixpoint parse_value (fuel : nat) (s : string) : scan json :=
  match fuel with
  | O => Beyond
  | S fuel' =>
      match s with
      | EmptyString => Malformed
      | String c r =>
          if Ascii.eqb c dquote then
            match scanstring r with
            | Scanned x rest => Scanned (JStr x) rest
            | Malformed => Malformed
            | Beyond => Beyond
            end
          else if Ascii.eqb c "{" then
            match skip_ws r with
            | String c1 r1 =>
                if Ascii.eqb c1 "}" then Scanned (JObj []) r1
                else parse_members fuel' (String c1 r1) []
            | EmptyString => Malformed
            end
          else if Ascii.eqb c "[" then
            match skip_ws r with
            | String c1 r1 =>
                if Ascii.eqb c1 "]" then Scanned (JArr []) r1
                else parse_elements fuel' (String c1 r1) []
            | EmptyString => Malformed
            end
          else if Ascii.eqb c "n" then literal "null" JNull s
          else if Ascii.eqb c "t" then literal "true" (JBool true) s
          else if Ascii.eqb c "f" then literal "false" (JBool false) s
          else scan_number s
      end
  end

with parse_members (fuel : nat) (s : string) (acc : list (string * json))
  : scan json :=
  match fuel with
  | O => Beyond
  | S fuel' =>
      match s with
      | EmptyString => Malformed
      | String c r =>
          if Ascii.eqb c dquote then
            match scanstring r with
            | Scanned key r1 =>
                match skip_ws r1 with
                | String c2 r2 =>
                    if Ascii.eqb c2 ":" then
                      match parse_value fuel' (skip_ws r2) with
                      | Scanned v r3 =>
                          match skip_ws r3 with
                          | String c4 r4 =>
                              if Ascii.eqb c4 "}" then Scanned (JObj (dict_set key v acc)) r4
                              else if Ascii.eqb c4 ","
                              then parse_members fuel' (skip_ws r4) (dict_set key v acc)
                              else Malformed
                          | EmptyString => Malformed
                          end
                      | Malformed => Malformed
                      | Beyond => Beyond
                      end
                    else Malformed
                | EmptyString => Malformed
                end
            | Malformed => Malformed
            | Beyond => Beyond
            end
          else Malformed
      end
  end

with parse_elements (fuel : nat) (s : string) (acc : list json)
  : scan json :=
  match fuel with
  | O => Beyond
  | S fuel' =>
      match parse_value fuel' s with
      | Scanned v r1 =>
          match skip_ws r1 with
          | String c2 r2 =>
              if Ascii.eqb c2 "]" then Scanned (JArr (acc ++ [v])) r2
              else if Ascii.eqb c2 ","
              then parse_elements fuel' (skip_ws r2) (acc ++ [v])
              else Malformed
          | EmptyString => Malformed
          end
      | Malformed => Malformed
      | Beyond => Beyond
      end
  end.

(** [json.loads(s)].  On a text with a construct left out, the result is
    [Raised Unmodelled]: the development does not say what the program does
    with such a text. *)
Definition loads (s : string) : outcome json :=
  match parse_value (S (String.length s + String.length s)) (skip_ws s) with
  | Scanned v rest =>
      match skip_ws rest with
      | EmptyString => Ok v
      | String _ _ => Raised JSONDecodeError
      end
  | Malformed => Raised JSONDecodeError
  | Beyond => Raised Unmodelled
  end.

End Json.

(** * The outside world

    The function talks to Secrets Manager and to the load-balancer control
    plane through [boto3], reads the process environment and draws random
    numbers.  A computation is a tree of such calls: each node names the
    call, and its branches are indexed by the replies the outside can give.
    Any environment (a state and a function that answers calls) runs it. *)

Module Effects.
Import Json.

(** ** The shapes of the replies (the members the code reads) *)

Record HttpHeaderConfigT : Type := {
  HttpHeaderName : option string;
  Values : option (list json)
}.

(** A rule condition is a dictionary: [Field] and [HttpHeaderConfig] are
    the members the code looks at, [OtherMembers] carries the rest. *)
Record RuleCondition : Type := {
  Field : option string;
  HttpHeaderConfig : option HttpHeaderConfigT;
  OtherMembers : list (string * json)
}.

Record Rule : Type := {
  RuleArn : string;
  IsDefault : bool;
  Conditions : list RuleCondition;
  Actions : list json
}.

Record Listener : Type := { ListenerArn : string }.

Record LoadBalancer : Type := {
  LoadBalancerName : string;
  LoadBalancerArn : string
}.

(** [VersionIdsToStages] is a dictionary, kept in the order of the reply. *)
Record SecretMetadata : Type := {
  RotationEnabled : bool;
  VersionIdsToStages : list (string * list string)
}.

(** ** Calls *)

Inductive call : Type :=
| GetSecretValue (SecretId : string) (VersionId : option string) (VersionStage : string)
| PutSecretValue (SecretId ClientRequestToken SecretString : string) (VersionStages : list string)
| DescribeSecret (SecretId : string)
| UpdateSecretVersionStage (SecretId VersionStage MoveToVersionId : string)
    (RemoveFromVersionId : option string)
| DescribeLoadBalancers
| DescribeListeners (LoadBalancerArn : string)
| DescribeRules (ListenerArn : string)
| ModifyRule (RuleArn : string) (Conditions : list RuleCondition) (Actions : list json)
| GetEnv (name : string)
| RandBelow (n : nat).

(** The reply to each call.  A call to a service can raise; reading the
    environment and drawing a number cannot.  [GetSecretValue] replies with
    the [SecretString] member when the response has one;
    [DescribeLoadBalancers] with the [LoadBalancers] member when the
    response has one. *)
Definition reply (c : call) : Type :=
  match c with
  | GetSecretValue _ _ _ => outcome (option string)
  | PutSecretValue _ _ _ _ => outcome unit
  | DescribeSecret _ => outcome SecretMetadata
  | UpdateSecretVersionStage _ _ _ _ => outcome unit
  | DescribeLoadBalancers => outcome (option (list LoadBalancer))
  | DescribeListeners _ => outcome (list Listener)
  | DescribeRules _ => outcome (list Rule)
  | ModifyRule _ _ _ => outcome unit
  | GetEnv _ => option string
  | RandBelow _ => nat
  end.

(** Replies as plain data, for the record of a run. *)
Inductive answer : Type :=
| SecretValue (r : outcome (option string))
| Done (r : outcome unit)
| Metadata (r : outcome SecretMetadata)
| LoadBalancers (r : outcome (option (list LoadBalancer)))
| Listeners (r : outcome (list Listener))
| Rules (r : outcome (list Rule))
| EnvValue (v : option string)
| Drawn (i : nat).

Definition answer_of (c : call) : reply c -> answer :=
  match c with
  | GetSecretValue _ _ _ => SecretValue
  | PutSecretValue _ _ _ _ => Done
  | DescribeSecret _ => Metadata
  | UpdateSecretVersionStage _ _ _ _ => Done
  | DescribeLoadBalancers => LoadBalancers
  | DescribeListeners _ => Listeners
  | DescribeRules _ => Rules
  | ModifyRule _ _ _ => Done
  | GetEnv _ => EnvValue
  | RandBelow _ => Drawn
  end.

Record event : Type := Ev { ev_call : call; ev_answer : answer }.

(** ** Computations *)

Inductive prog (A : Type) : Type :=
| Ret (a : A)
| Raise (e : exn)
| Vis (c : call) (k : reply c -> prog A).
Arguments Ret {A} a.
Arguments Raise {A} e.
Arguments Vis {A} c k.

Fixpoint bind {A B} (m : prog A) (f : A -> prog B) : prog B :=
  match m with
  | Ret a => f a
  | Raise e => Raise e
  | Vis c k => Vis c (fun r => bind (k r) f)
  end.

Notation "'let!' x ':=' m 'in' k" := (bind m (fun x => k))
  (at level 10, x binder, m at level 100, k at level 200).
Notation "m ';;;' k" := (bind m (fun _ => k))
  (at level 100, k at level 200, right associativity).

(** A pure step that can raise. *)
Definition lift {A} (o : outcome A) : prog A :=
  match o with
  | Ok a => Ret a
  | Raised e => Raise e
  end.

(** The [try] of a [try ... except]: the exception becomes a value. *)
Fixpoint attempt {A} (m : prog A) : prog (outcome A) :=
  match m with
  | Ret a => Ret (Ok a)
  | Raise e => Ret (Raised e)
  | Vis c k => Vis c (fun r => attempt (k r))
  end.

(** [for x in l: body(x)] *)
Fixpoint for_each {X} (l : list X) (body : X -> prog unit) : prog unit :=
  match l with
  | [] => Ret tt
  | x :: r => body x ;;; for_each r body
  end.

(** The client methods. *)
Definition get_secret_value (SecretId : string) (VersionId : option string)
  (VersionStage : string) : prog (option string) :=
  Vis (GetSecretValue SecretId VersionId VersionStage) lift.

Definition put_secret_value (SecretId ClientRequestToken SecretString : string)
  (VersionStages : list string) : prog unit :=
  Vis (PutSecretValue SecretId ClientRequestToken SecretString VersionStages) lift.

Definition describe_secret (SecretId : string) : prog SecretMetadata :=
  Vis (DescribeSecret SecretId) lift.

Definition update_secret_version_stage (SecretId VersionStage MoveToVersionId : string)
  (RemoveFromVersionId : option string) : prog unit :=
  Vis (UpdateSecretVersionStage SecretId VersionStage MoveToVersionId RemoveFromVersionId) lift.

Definition describe_load_balancers : prog (option (list LoadBalancer)) :=
  Vis DescribeLoadBalancers lift.

Definition describe_listeners (LoadBalancerArn : string) : prog (list Listener) :=
  Vis (DescribeListeners LoadBalancerArn) lift.

Definition describe_rules (ListenerArn : string) : prog (list Rule) :=
  Vis (DescribeRules ListenerArn) lift.

Definition modify_rule (RuleArn : string) (Conditions : list RuleCondition)
  (Actions : list json) : prog unit :=
  Vis (ModifyRule RuleArn Conditions Actions) lift.

(** [os.environ.get(name, default)] *)
Definition environ_get (name default : string) : prog string :=
  Vis (GetEnv name) (fun v : option string => Ret (match v with Some x => x | None => default end)).

(** [random.choice(seq)] is [seq[k]] for an index [k] below [len(seq)] that
    the generator draws; the draw is a natural number taken modulo the
    length. *)
Definition random_choice (seq : string) : prog ascii :=
  Vis (RandBelow (String.length seq))
    (fun i : nat => Ret (PyStr.char_at (i mod String.length seq) seq "000"%char)).

(** ** Running a computation in an environment *)

Definition env (W : Type) : Type := forall c : call, W -> reply c * W.

(** The reply of the environment to a call, and the state it moves to. *)
Definition ask {W} (E : env W) (c : call) (w : W) : reply c := fst (E c w).
Definition next {W} (E : env W) (c : call) (w : W) : W := snd (E c w).

Record run_result (W A : Type) : Type := {
  trace : list event;
  result : outcome A;
  final : W
}.
Arguments trace {W A} r.
Arguments result {W A} r.
Arguments final {W A} r.

Definition after {W A} (ev : event) (r : run_result W A) : run_result W A :=
  {| trace := ev :: trace r; result := result r; final := final r |}.

Fixpoint run {W A} (E : env W) (m : prog A) (w : W) : run_result W A :=
  match m with
  | Ret a => {| trace := []; result := Ok a; final := w |}
  | Raise e => {| trace := []; result := Raised e; final := w |}
  | Vis c k =>
      after (Ev c (answer_of c (ask E c w))) (run E (k (ask E c w)) (next E c w))
  end.

Arguments ask : simpl never.
Arguments next : simpl never.

(** The calls of a run, in order. *)
Definition calls {W A} (r : run_result W A) : list call := List.map ev_call (trace r).

End Effects.

(** * The rotation function, in source order

    The calls to [logger] are left out; where the argument of one is
    evaluated and can raise (line 160), the evaluation is kept. *)

Module Rotator.
Import PyStr Json Effects.

(** [x in l] for a list of strings. *)
Definition list_mem (x : string) (l : list string) : bool :=
  existsb (String.eqb x) l.

(** ** [get_secret] (lines 55-64).  The [token] argument is not used. *)
Definition get_secret (secret_id stage token : string) : prog string :=
  let! response := get_secret_value secret_id None stage in
  match response with
  | Some secret_value => Ret secret_value
  | None => Raise (KeyError "SecretString")
  end.

(** ** [key_generator] (lines 72-74) *)
Definition chars : string := ascii_uppercase +:+ ascii_lowercase +:+ digits.

Fixpoint key_generator (size : nat) : prog string :=
  match size with
  | O => Ret ""
  | S n =>
      let! c := random_choice chars in
      let! r := key_generator n in
      Ret (String c r)
  end.

(** ** [set_api_key_in_alb] (lines 89-170) *)

(** The test of lines 154-158.  [condition["HttpHeaderConfig"]] raises when
    a condition on [http-header] has no such member. *)
Definition is_api_key_condition (condition : RuleCondition) : outcome bool :=
  match Field condition with
  | Some field =>
      if String.eqb field "http-header" then
        match HttpHeaderConfig condition with
        | Some config =>
            Ok (match HttpHeaderName config with
                | Some name => String.eqb name "X-AWS-API-KEY"
                | None => false
                end)
        | None => Raised (KeyError "HttpHeaderConfig")
        end
      else Ok false
  | None => Ok false
  end.

(** [new_conditions[i]["HttpHeaderConfig"]["Values"] = [secret_value]]
    (lines 159-165).  The current values are read first, for the log line
    that prints them. *)
Definition set_values (secret_value : json) (i : nat) (new_conditions : list RuleCondition)
  : outcome (list RuleCondition) :=
  match new_conditions !! i with
  | Some c =>
      match HttpHeaderConfig c with
      | Some config =>
          match Values config with
          | Some _ =>
              Ok (<[i := {| Field := Field c;
                            HttpHeaderConfig :=
                              Some {| HttpHeaderName := HttpHeaderName config;
                                      Values := Some [secret_value] |};
                            OtherMembers := OtherMembers c |}]> new_conditions)
          | None => Raised (KeyError "Values")
          end
      | None => Raised (KeyError "HttpHeaderConfig")
      end
  | None => Raised IndexError
  end.

(** The loop of lines 153-166 from index [i] on: the iterator reads
    [new_conditions[i]] from the list that the body updates.  The list keeps
    its length, which bounds the number of turns. *)
Fixpoint conditions_loop (secret_value : json) (turns i : nat)
  (new_conditions : list RuleCondition) : outcome (list RuleCondition) :=
  match turns with
  | O => Ok new_conditions
  | S turns' =>
      match new_conditions !! i with
      | None => Ok new_conditions
      | Some condition =>
          match is_api_key_condition condition with
          | Raised e => Raised e
          | Ok false => conditions_loop secret_value turns' (S i) new_conditions
          | Ok true =>
              match set_values secret_value i new_conditions with
              | Raised e => Raised e
              | Ok updated => conditions_loop secret_value turns' (S i) updated
              end
          end
      end
  end.

(** Lines 151-166: [i = 0], [new_conditions = rule["Conditions"]], the loop.
    [new_conditions] is the list of the rule itself, updated in place; the
    rule comes from the reply to [describe_rules] and only its ARN and its
    actions are read afterwards, so the update shows in the list handed to
    [modify_rule] and nowhere else. *)
Definition update_conditions (secret_value : json) (conditions : list RuleCondition)
  : outcome (list RuleCondition) :=
  conditions_loop secret_value (length conditions) 0 conditions.

(** The body of [for rule in rule_response["Rules"]] (lines 146-168). *)
Definition update_rule (secret_value : json) (rule : Rule) : prog unit :=
  if IsDefault rule then Ret tt
  else
    let! new_conditions := lift (update_conditions secret_value (Conditions rule)) in
    modify_rule (RuleArn rule) new_conditions (Actions rule).

(** The body of [for listener in listener_response["Listeners"]]
    (lines 139-168). *)
Definition update_listener (secret_value : json) (listener : Listener) : prog unit :=
  let listener_arn := ListenerArn listener in
  let! rules := describe_rules listener_arn in
  for_each rules (update_rule secret_value).

(** The body of [for alb in response['LoadBalancers']] (lines 109-168). *)
Definition update_alb (secret_value : json) (alb : LoadBalancer) : prog unit :=
  let alb_name := LoadBalancerName alb in
  let alb_arn := LoadBalancerArn alb in
  let! alb_to_rotate := environ_get "ALBNAME" "" in
  let rotate_this_alb := false in
  let rotate_this_alb := if String.eqb alb_to_rotate "" then true else rotate_this_alb in
  let rotate_this_alb := if contains alb_to_rotate alb_name then true else rotate_this_alb in
  if rotate_this_alb then
    let! listeners := describe_listeners alb_arn in
    for_each listeners (update_listener secret_value)
  else Ret tt.

(** [secret_value] is whatever the payload holds under [key3]; Python's
    [None] is JSON's [null]. *)
Definition set_api_key_in_alb (secret_value : json) : prog Z :=
  match secret_value with
  | JNull => Ret 1%Z
  | _ =>
      let! response := describe_load_balancers in
      match response with
      | Some albs => for_each albs (update_alb secret_value)
      | None => Ret tt
      end ;;;
      Ret 0%Z
  end.

(** ** [create_secret] (lines 187-229) *)
Definition create_secret (secret_id token : string) : prog Z :=
  let! old_secret_value := get_secret secret_id "AWSCURRENT" token in
  let! old_secret_value_json := lift (loads old_secret_value) in
  let! pending_secret_value :=
    attempt (get_secret_value secret_id (Some token) "AWSPENDING") in
  match pending_secret_value with
  | Ok _ => Ret 0%Z
  | Raised ResourceNotFoundException =>
      let! old_secret_value_json := lift (loads old_secret_value) in
      let! key1 := lift (subscript old_secret_value_json "key2") in
      let! key2 := lift (subscript old_secret_value_json "key3") in
      let! key3 := key_generator 16 in
      let new_secret_value := JObj [("key1", key1); ("key2", key2); ("key3", JStr key3)] in
      put_secret_value secret_id token
        (replace backslash "" (dumps new_secret_value)) ["AWSPENDING"] ;;;
      Ret 0%Z
  | Raised e => Raise e
  end.

(** ** [set_secret] (lines 239-249) *)
Definition set_secret (secret_id token : string) : prog Z :=
  let! secret_value := get_secret secret_id "AWSPENDING" token in
  let! secret_value_json :=
    lift (loads (replace backslash "" (replace apostrophe (String dquote "") secret_value))) in
  let! key3 := lift (subscript secret_value_json "key3") in
  set_api_key_in_alb key3 ;;;
  Ret 0%Z.

(** ** [test_secret] (lines 256-262) *)
Definition test_secret (secret_id token : string) : prog Z :=
  let! secret_value_current := get_secret secret_id "AWSCURRENT" token in
  let! secret_value_pending := get_secret secret_id "AWSPENDING" token in
  Ret 0%Z.

(** ** [finish_secret] (lines 270-292) *)

(** Where the loop of lines 278-287 leaves the function. *)
Inductive version_scan : Type :=
| AlreadyCurrent
| CurrentVersion (current_version : option string).

Fixpoint scan_versions (token : string) (stages_of : list (string * list string))
  (versions : list string) : outcome version_scan :=
  match versions with
  | [] => Ok (CurrentVersion None)
  | version :: rest =>
      match dict_get version stages_of with
      | None => Raised (KeyError version)
      | Some stages =>
          if list_mem "AWSCURRENT" stages then
            if String.eqb version token then Ok AlreadyCurrent
            else Ok (CurrentVersion (Some version))
          else scan_versions token stages_of rest
      end
  end.

(** The function returns [None] from inside the loop and [0] at its end. *)
Definition finish_secret (secret_id token : string) : prog (option Z) :=
  let! secret_value := get_secret secret_id "AWSPENDING" token in
  let! metadata := describe_secret secret_id in
  let! scan :=
    lift (scan_versions token (VersionIdsToStages metadata)
            (List.map fst (VersionIdsToStages metadata))) in
  match scan with
  | AlreadyCurrent => Ret None
  | CurrentVersion current_version =>
      update_secret_version_stage secret_id "AWSCURRENT" token current_version ;;;
      Ret (Some 0%Z)
  end.

(** ** [lambda_handler] (lines 301-366) *)

Record Event : Type := {
  Step : string;
  SecretId : string;
  ClientRequestToken : option string
}.

Record Response : Type := { statusCode : Z; body : string }.

Definition not_enabled_message (secret_id : string) : string :=
  "Secret " +:+ secret_id +:+ " is not enabled for rotation".

Definition no_stage_message (token secret_id : string) : string :=
  "Secret version " +:+ token +:+ " has no stage for rotation of secret " +:+ secret_id +:+ ".".

Definition not_pending_message (token secret_id : string) : string :=
  "Secret version " +:+ token +:+ " not set as AWSPENDING for rotation of secret "
  +:+ secret_id +:+ ".".

(** The function returns [None] at line 326 and the response at line 363. *)
Definition lambda_handler (event : Event) (context : unit) : prog (option Response) :=
  let step := Step event in
  let secret_id := SecretId event in
  let token := match ClientRequestToken event with Some t => t | None => "" end in
  let! metadata := describe_secret secret_id in
  if negb (RotationEnabled metadata) then
    Raise (ValueError (not_enabled_message secret_id))
  else
    let versions := VersionIdsToStages metadata in
    match dict_get token versions with
    | None => Raise (ValueError (no_stage_message token secret_id))
    | Some stages =>
        if list_mem "AWSCURRENT" stages then Ret None
        else if negb (list_mem "AWSPENDING" stages) then
          Raise (ValueError (not_pending_message token secret_id))
        else
          (if String.eqb (lower step) "createsecret" then
             create_secret secret_id token ;;; Ret tt
           else if String.eqb (lower step) "setsecret" then
             set_secret secret_id token ;;; Ret tt
           else if String.eqb (lower step) "testsecret" then
             test_secret secret_id token ;;; Ret tt
           else if String.eqb (lower step) "finishsecret" then
             finish_secret secret_id token ;;; Ret tt
           else Ret tt) ;;;
          Ret (Some {| statusCode := 200; body := "done." |})
    end.

End Rotator.

(** * An in-memory environment

    One secret with its versions, a set of load balancers, the process
    environment and a supply of numbers for the random generator.  It is a
    test double: the theorems below hold in every environment, and this one
    runs the functions on concrete inputs. *)

Module Fake.
Import PyStr Json Effects Rotator.

Record world : Type := {
  rotation_enabled : bool;
  versions : list (string * list string);
  secret_values : list (string * string);
  load_balancers : list LoadBalancer;
  listeners : list (string * list Listener);
  rules : list (string * list Rule);
  environ : list (string * string);
  entropy : list nat
}.

Definition with_secret (w : world) (vs : list (string * list string))
  (vals : list (string * string)) : world :=
  {| rotation_enabled := rotation_enabled w; versions := vs; secret_values := vals;
     load_balancers := load_balancers w; listeners := listeners w; rules := rules w;
     environ := environ w; entropy := entropy w |}.

Definition with_rules (w : world) (rs : list (string * list Rule)) : world :=
  {| rotation_enabled := rotation_enabled w; versions := versions w;
     secret_values := secret_values w; load_balancers := load_balancers w;
     listeners := listeners w; rules := rs; environ := environ w; entropy := entropy w |}.

Definition with_entropy (w : world) (ns : list nat) : world :=
  {| rotation_enabled := rotation_enabled w; versions := versions w;
     secret_values := secret_values w; load_balancers := load_balancers w;
     listeners := listeners w; rules := rules w; environ := environ w; entropy := ns |}.

(** The version that carries [stage] (and is [version_id], when one is
    asked for). *)
Fixpoint find_version (version_id : option string) (stage : string)
  (vs : list (string * list string)) : option string :=
  match vs with
  | [] => None
  | (v, stages) :: r =>
      if list_mem stage stages
         && match version_id with Some x => String.eqb x v | None => true end
      then Some v else find_version version_id stage r
  end.

Definition remove_stages (gone : list string) (stages : list string) : list string :=
  List.filter (fun s => negb (list_mem s gone)) stages.

(** The labels [stages] move to [version]. *)
Definition attach (version : string) (stages : list string)
  (vs : list (string * list string)) : list (string * list string) :=
  let others := List.map (fun p => (fst p, remove_stages stages (snd p))) vs in
  dict_set version
    (match dict_get version others with Some old => old ++ stages | None => stages end)
    others.

Definition set_rule (arn : string) (conditions : list RuleCondition) (actions : list json)
  (r : Rule) : Rule :=
  if String.eqb (RuleArn r) arn
  then {| RuleArn := arn; IsDefault := IsDefault r; Conditions := conditions; Actions := actions |}
  else r.

Definition handle : env world := fun c =>
  match c return world -> reply c * world with
  | GetSecretValue _ version_id stage => fun w =>
      (match find_version version_id stage (versions w) with
       | Some v =>
           match dict_get v (secret_values w) with
           | Some s => Ok (Some s)
           | None => Raised ResourceNotFoundException
           end
       | None => Raised ResourceNotFoundException
       end, w)
  | PutSecretValue _ token s stages => fun w =>
      (Ok tt, with_secret w (attach token stages (versions w)) (dict_set token s (secret_values w)))
  | DescribeSecret _ => fun w =>
      (Ok {| RotationEnabled := rotation_enabled w; VersionIdsToStages := versions w |}, w)
  | UpdateSecretVersionStage _ stage move_to remove_from => fun w =>
      match remove_from with
      | None => (Raised (ClientError "ParamValidationError"), w)
      | Some old =>
          if String.eqb (match find_version None stage (versions w) with Some v => v | None => "" end) old
          then (Ok tt, with_secret w (attach move_to [stage] (versions w)) (secret_values w))
          else (Raised (ClientError "InvalidParameterException"), w)
      end
  | DescribeLoadBalancers => fun w => (Ok (Some (load_balancers w)), w)
  | DescribeListeners arn => fun w =>
      (Ok (match dict_get arn (listeners w) with Some l => l | None => [] end), w)
  | DescribeRules arn => fun w =>
      (Ok (match dict_get arn (rules w) with Some l => l | None => [] end), w)
  | ModifyRule arn conditions actions => fun w =>
      (Ok tt,
       with_rules w
         (List.map (fun p => (fst p, List.map (set_rule arn conditions actions) (snd p))) (rules w)))
  | GetEnv name => fun w => (dict_get name (environ w), w)
  | RandBelow _ => fun w =>
      match entropy w with
      | [] => (0, w)
      | n :: r => (n, with_entropy w r)
      end
  end.

(** ** A secret in the middle of a rotation, in front of one load balancer *)

Definition payload (key1 key2 key3 : string) : string :=
  dumps (JObj [("key1", JStr key1); ("key2", JStr key2); ("key3", JStr key3)]).

Definition api_key_condition (values : list string) : RuleCondition :=
  {| Field := Some "http-header";
     HttpHeaderConfig :=
       Some {| HttpHeaderName := Some "X-AWS-API-KEY";
               Values := Some (List.map JStr values) |};
     OtherMembers := [] |}.

Definition path_condition (pattern : string) : RuleCondition :=
  {| Field := Some "path-pattern";
     HttpHeaderConfig := None;
     OtherMembers := [("Values", JArr [JStr pattern])] |}.

Definition forward (target : string) : json :=
  JObj [("Type", JStr "forward"); ("TargetGroupArn", JStr target)].

Definition api_rule : Rule :=
  {| RuleArn := "rule/api"; IsDefault := false;
     Conditions := [path_condition "/api/*"; api_key_condition ["old123"]];
     Actions := [forward "tg/api"] |}.

Definition plain_rule : Rule :=
  {| RuleArn := "rule/plain"; IsDefault := false;
     Conditions := [path_condition "/static/*"];
     Actions := [forward "tg/static"] |}.

Definition default_rule : Rule :=
  {| RuleArn := "rule/default"; IsDefault := true;
     Conditions := [];
     Actions := [forward "tg/default"] |}.

(** The version [old] is current with payload [current]; the version [new]
    is pending and has no value yet. *)
Definition rotating (current : string) : world :=
  {| rotation_enabled := true;
     versions := [("old", ["AWSCURRENT"]); ("new", ["AWSPENDING"])];
     secret_values := [("old", current)];
     load_balancers := [{| LoadBalancerName := "front"; LoadBalancerArn := "alb/front" |}];
     listeners := [("alb/front", [{| ListenerArn := "listener/443" |}])];
     rules := [("listener/443", [api_rule; plain_rule; default_rule])];
     environ := [];
     entropy := [0; 27; 53; 1; 28; 54; 2; 29; 55; 3; 30; 56; 4; 31; 57; 61] |}.

(** ** Events and worlds of the scenarios *)

Definition event_for (step token : string) : Event :=
  {| Step := step; SecretId := "secret"; ClientRequestToken := Some token |}.

(** The payload of generated keys. *)
Definition fresh : world := rotating (payload "k0000000000000a" "k0000000000000b" "k0000000000000c").

(** A payload whose second slot holds a backslash. *)
Definition with_backslash : world := rotating (payload "a" "x\y" "c").

(** The rotation is over: [new] is current. *)
Definition finished : world :=
  with_secret fresh
    [("old", []); ("new", ["AWSPENDING"; "AWSCURRENT"])]
    [("old", payload "a" "b" "c"); ("new", payload "b" "c" "Ab1Bc2Cd3De4Ef59")].

(** Rotation is not enabled for the secret. *)
Definition disabled : world :=
  {| rotation_enabled := false; versions := versions fresh;
     secret_values := secret_values fresh; load_balancers := load_balancers fresh;
     listeners := listeners fresh; rules := rules fresh; environ := environ fresh;
     entropy := entropy fresh |}.


(** The rotation is over and the pending label is gone: [new] carries
    AWSCURRENT alone. *)
Definition promoted : world :=
  with_secret fresh
    [("old", ["AWSPREVIOUS"]); ("new", ["AWSCURRENT"])]
    [("old", payload "a" "b" "c"); ("new", payload "b" "c" "Ab1Bc2Cd3De4Ef59")].

(** The rotation is over, and rotation has been switched off. *)
Definition retired : world :=
  {| rotation_enabled := false; versions := versions finished;
     secret_values := secret_values finished; load_balancers := load_balancers fresh;
     listeners := listeners fresh; rules := rules fresh; environ := environ fresh;
     entropy := entropy fresh |}.

End Fake.

(** * What a run shows

    The vocabulary of the statements: which calls write, which rules a run
    was shown, which update the code owes each of them. *)

Module Observe.
Import PyStr Json Effects Rotator.

Definition is_modify (c : call) : bool :=
  match c with ModifyRule _ _ _ => true | _ => false end.

Definition is_put (c : call) : bool :=
  match c with PutSecretValue _ _ _ _ => true | _ => false end.

Definition is_stage_move (c : call) : bool :=
  match c with UpdateSecretVersionStage _ _ _ _ => true | _ => false end.

Definition is_draw (c : call) : bool :=
  match c with RandBelow _ => true | _ => false end.

(** The calls that change the secret store or the load balancers. *)
Definition is_write (c : call) : bool := is_put c || is_stage_move c || is_modify c.

(** The rule updates of a trace, in order. *)
Definition updates (t : list event) : list call :=
  List.filter is_modify (List.map ev_call t).

(** A rule update for the rule of ARN [arn]. *)
Definition updates_rule (arn : string) (c : call) : bool :=
  match c with
  | ModifyRule a _ _ => String.eqb a arn
  | _ => false
  end.

(** The rules a trace was shown by [DescribeRules], in order. *)
Definition rules_of (ev : event) : list Rule :=
  match ev_call ev, ev_answer ev with
  | DescribeRules _, Rules (Ok rs) => rs
  | _, _ => []
  end.

Definition rules_seen (t : list event) : list Rule := flat_map rules_of t.

(** A condition on the sentinel header: its field is [http-header] and the
    header it names is [X-AWS-API-KEY]. *)
Definition matches_sentinel (c : RuleCondition) : bool :=
  match Field c, HttpHeaderConfig c with
  | Some field, Some config =>
      String.eqb field "http-header"
      && match HttpHeaderName config with
         | Some name => String.eqb name "X-AWS-API-KEY"
         | None => false
         end
  | _, _ => false
  end.

(** [c'] is [c] with the values of its header configuration replaced by
    [[key]], when [c] is on the sentinel header; it is [c] otherwise. *)
Definition rewritten (key : json) (c c' : RuleCondition) : Prop :=
  if matches_sentinel c then
    Field c' = Field c /\ OtherMembers c' = OtherMembers c /\
    exists config config',
      HttpHeaderConfig c = Some config /\ HttpHeaderConfig c' = Some config' /\
      HttpHeaderName config' = HttpHeaderName config /\ Values config' = Some [key]
  else c' = c.

(** The rules the loop does not skip. *)
Definition non_default (rule : Rule) : bool := negb (IsDefault rule).

(** The update owed to a rule: its conditions as the loop of lines 153-166
    leaves them, its actions (none when that loop raises). *)
Definition update_for (key : json) (rule : Rule) : list call :=
  match update_conditions key (Conditions rule) with
  | Ok conditions => [ModifyRule (RuleArn rule) conditions (Actions rule)]
  | Raised _ => []
  end.

(** The loop of lines 153-166 gets through the rule without raising. *)
Definition updatable (key : json) (rule : Rule) : bool :=
  is_ok (update_conditions key (Conditions rule)).

(** The updates of a run are those owed to the rules it was shown that are
    not default rules, one for one and in order: all of them when it ends
    normally, the first of them when it raises. *)
Definition tracks {W A} (key : json) (r : run_result W A) : Prop :=
  exists rest,
    updates (trace r) ++ rest =
    flat_map (update_for key) (List.filter non_default (rules_seen (trace r))) /\
    (is_ok (result r) = true ->
     rest = [] /\
     forallb (updatable key) (List.filter non_default (rules_seen (trace r))) = true).

(** Sequencing two runs: the second starts where the first ends normally. *)
Definition seq_result {W A B} (r : run_result W A) (next : A -> W -> run_result W B)
  : run_result W B :=
  match result r with
  | Ok a =>
      {| trace := trace r ++ trace (next a (final r));
         result := result (next a (final r));
         final := final (next a (final r)) |}
  | Raised e => {| trace := trace r; result := Raised e; final := final r |}
  end.

(** The alphabet of the keys. *)
Definition in_alphabet (c : ascii) : bool := mem_char c chars.
Definition is_key (k : string) : Prop :=
  String.length k = 16 /\ all_chars in_alphabet k = true.

(** The payload of three slots, as a JSON value. *)
Definition payload_of (slotA slotB slotC : string) : json :=
  JObj [("key1", JStr slotA); ("key2", JStr slotB); ("key3", JStr slotC)].

(** The text [{"key1": "a", "key2": "b", "key3": "c"}]. *)
Definition quoted_then (s rest : string) : string :=
  String dquote (s +:+ String dquote rest).

Definition payload_text (slotA slotB slotC : string) : string :=
  String "{" (quoted_then "key1" (": " +:+ quoted_then slotA (", " +:+
              quoted_then "key2" (": " +:+ quoted_then slotB (", " +:+
              quoted_then "key3" (": " +:+ quoted_then slotC "}")))))).

(** The characters [json.dumps] prints as they are and that are not an
    apostrophe: the set step's parse leaves them alone. *)
Definition plain (c : ascii) : bool := unescaped c && negb (Ascii.eqb c apostrophe).

(** The response of a completed call. *)
Definition done_response : Response := {| statusCode := 200; body := "done." |}.

(** The token of an event. *)
Definition token_of (event : Event) : string :=
  match ClientRequestToken event with Some t => t | None => "" end.

(** The label [AWSCURRENT] is on [token] and on no other version. *)
Definition current_only_on (token : string) (metadata : SecretMetadata) : Prop :=
  (exists stages,
     dict_get token (VersionIdsToStages metadata) = Some stages /\
     list_mem "AWSCURRENT" stages = true) /\
  forall version stages,
    In (version, stages) (VersionIdsToStages metadata) ->
    list_mem "AWSCURRENT" stages = true -> version = token.

(** The event passes the validation of lines 304-333 in the state [w]:
    the metadata is returned, rotation is enabled, the token is in the
    version map and carries AWSPENDING and not AWSCURRENT. *)
Definition validated {W} (E : env W) (event : Event) (w : W) : Prop :=
  exists metadata stages,
    ask E (DescribeSecret (SecretId event)) w = Ok metadata /\
    RotationEnabled metadata = true /\
    dict_get (token_of event) (VersionIdsToStages metadata) = Some stages /\
    list_mem "AWSCURRENT" stages = false /\
    list_mem "AWSPENDING" stages = true.

(** The decoder reads the text [s] as [json.loads] does: [s] has none of
    the constructs that the development leaves out. *)
Definition modelled (s : string) : Prop := loads s <> Raised Unmodelled.

(** No update of [rule] is among the calls of a run. *)
Definition leaves_alone {W A} (rule : Rule) (r : run_result W A) : Prop :=
  forall conditions actions, ~ In (ModifyRule (RuleArn rule) conditions actions) (calls r).

End Observe.

(** * More vocabulary

    The classes of calls, the well-formed conditions, the texts and the
    worlds of the properties that follow the claims. *)

Module Further.
Import PyStr Json Effects Rotator Observe.

(** ** Classes of calls *)

(** The calls of the create step on [secret_id] and [token]: reads of the
    secret, draws, and puts under the token with the one label AWSPENDING. *)
Definition create_call (secret_id token : string) (c : call) : Prop :=
  match c with
  | GetSecretValue s _ _ => s = secret_id
  | RandBelow _ => True
  | PutSecretValue s t _ stages => s = secret_id /\ t = token /\ stages = ["AWSPENDING"]
  | _ => False
  end.

(** The calls of the rule synchronizer: the load-balancer control plane and
    the process environment. *)
Definition sync_call (c : call) : Prop :=
  match c with
  | DescribeLoadBalancers | DescribeListeners _ | DescribeRules _ | ModifyRule _ _ _
  | GetEnv _ => True
  | _ => False
  end.

(** A read of a staged version of [secret_id], without a version id. *)
Definition staged_read (secret_id : string) (c : call) : Prop :=
  match c with
  | GetSecretValue s None _ => s = secret_id
  | _ => False
  end.

(** The calls of the finish step on [secret_id] and [token]: the read of the
    pending version, the metadata, and the move of AWSCURRENT to the token. *)
Definition finish_call (secret_id token : string) (c : call) : Prop :=
  match c with
  | GetSecretValue s None stage => s = secret_id /\ stage = "AWSPENDING"
  | DescribeSecret s => s = secret_id
  | UpdateSecretVersionStage s stage move_to _ =>
      s = secret_id /\ stage = "AWSCURRENT" /\ move_to = token
  | _ => False
  end.

(** ** Replies that raise *)

Definition raised_answer (ev : event) : option exn :=
  match ev_answer ev with
  | SecretValue (Raised e) | Done (Raised e) | Metadata (Raised e)
  | LoadBalancers (Raised e) | Listeners (Raised e) | Rules (Raised e) => Some e
  | _ => None
  end.

Definition answered (ev : event) : bool :=
  match raised_answer ev with
  | Some _ => false
  | None => true
  end.

(** ** Conditions the loop of lines 153-166 gets through *)

Definition is_http_header (c : RuleCondition) : bool :=
  match Field c with
  | Some field => String.eqb field "http-header"
  | None => false
  end.

Definition has_config (c : RuleCondition) : bool :=
  match HttpHeaderConfig c with
  | Some _ => true
  | None => false
  end.

Definition has_values (c : RuleCondition) : bool :=
  match HttpHeaderConfig c with
  | Some config => match Values config with Some _ => true | None => false end
  | None => false
  end.

(** A condition on [http-header] carries its [HttpHeaderConfig], and one on
    the sentinel header carries the [Values] of it. *)
Definition well_formed (c : RuleCondition) : bool :=
  (negb (is_http_header c) || has_config c) && (negb (matches_sentinel c) || has_values c).

(** A condition on [http-header] without its configuration. *)
Definition bare_header_condition : RuleCondition :=
  {| Field := Some "http-header"; HttpHeaderConfig := None; OtherMembers := [] |}.

(** ** The payload written with apostrophes, as [str] prints a dictionary *)

Definition quoted_then' (s rest : string) : string :=
  String apostrophe (s +:+ String apostrophe rest).

Definition payload_repr (slotA slotB slotC : string) : string :=
  String "{" (quoted_then' "key1" (": " +:+ quoted_then' slotA (", " +:+
              quoted_then' "key2" (": " +:+ quoted_then' slotB (", " +:+
              quoted_then' "key3" (": " +:+ quoted_then' slotC "}")))))).

(** ** The version that holds a label *)

Definition holds (stage : string) (entry : string * list string) : bool :=
  list_mem stage (snd entry).

(** The first version of the map that carries [stage]. *)
Definition first_holder (stage : string) (versions : list (string * list string))
  : option string :=
  option_map fst (List.find (holds stage) versions).

(** The filter of the environment variable ALBNAME, empty when it is not
    set. *)
Definition alb_filter (v : option string) : string :=
  match v with Some x => x | None => "" end.

(** ** The loop of lines 153-166, condition by condition *)

(** What the loop makes of one condition. *)
Definition rewrite_one (key : json) (c : RuleCondition) : outcome RuleCondition :=
  match is_api_key_condition c with
  | Raised e => Raised e
  | Ok false => Ok c
  | Ok true =>
      match HttpHeaderConfig c with
      | Some config =>
          match Values config with
          | Some _ =>
              Ok {| Field := Field c;
                    HttpHeaderConfig :=
                      Some {| HttpHeaderName := HttpHeaderName config; Values := Some [key] |};
                    OtherMembers := OtherMembers c |}
          | None => Raised (KeyError "Values")
          end
      | None => Raised (KeyError "HttpHeaderConfig")
      end
  end.

(** The conditions in order, up to the first that raises. *)
Fixpoint rewrite_all (key : json) (conditions : list RuleCondition)
  : outcome (list RuleCondition) :=
  match conditions with
  | [] => Ok []
  | c :: rest =>
      match rewrite_one key c with
      | Raised e => Raised e
      | Ok c' =>
          match rewrite_all key rest with
          | Ok rest' => Ok (c' :: rest')
          | Raised e => Raised e
          end
      end
  end.

(** ** Runs that stop at the first reply that raises *)

(** Every reply of the run is a normal one, or the last reply raises and
    the run raises the same exception. *)
Definition fails_fast {W A} (r : run_result W A) : Prop :=
  forallb answered (trace r) = true \/
  exists t ev e,
    trace r = t ++ [ev] /\ forallb answered t = true /\
    raised_answer ev = Some e /\ result r = Raised e.

(** ** The run of the entry point that hands over to a step handler *)

(** The calls of [r] are the [DescribeSecret] of the validation and those of
    [handler] from [w1]; [r] returns the response when the handler returns
    and raises what the handler raises. *)
Definition dispatched {W A} (E : env W) (r : run_result W (option Response))
  (secret_id : string) (handler : prog A) (w1 : W) : Prop :=
  calls r = DescribeSecret secret_id :: calls (run E handler w1) /\
  result r = match result (run E handler w1) with
             | Ok _ => Ok (Some done_response)
             | Raised e => Raised e
             end.

(** ** Worlds *)

(** The name filter is set to [name]. *)
Definition filtered (name : string) : Fake.world :=
  {| Fake.rotation_enabled := true; Fake.versions := Fake.versions Fake.fresh;
     Fake.secret_values := Fake.secret_values Fake.fresh;
     Fake.load_balancers := Fake.load_balancers Fake.fresh;
     Fake.listeners := Fake.listeners Fake.fresh; Fake.rules := Fake.rules Fake.fresh;
     Fake.environ := [("ALBNAME", name)]; Fake.entropy := Fake.entropy Fake.fresh |}.

(** The pending version holds [text]. *)
Definition pending_with (text : string) : Fake.world :=
  Fake.with_secret Fake.fresh (Fake.versions Fake.fresh)
    [("old", Fake.payload "a" "b" "c"); ("new", text)].

(** A token that carries neither label. *)
Definition stale : Fake.world :=
  Fake.with_secret Fake.fresh
    [("old", ["AWSCURRENT"]); ("new", ["AWSPENDING"]); ("older", ["AWSPREVIOUS"])]
    (Fake.secret_values Fake.fresh).

(** The control plane refuses every rule update. *)
Definition refusing : env Fake.world := fun c =>
  match c return Fake.world -> reply c * Fake.world with
  | ModifyRule _ _ _ => fun w => (Raised (ClientError "Throttling"), w)
  | c' => Fake.handle c'
  end.

End Further.

(** * Lemmas on runs *)

Module RunLemmas.
Import PyStr Json Effects Rotator Observe.

Section Runs.
Context {W : Type} (E : env W).

Lemma after_seq_result {A B} ev (r : run_result W A) (next : A -> W -> run_result W B) :
  after ev (seq_result r next) = seq_result (after ev r) next.
Proof.
  unfold seq_result, after; simpl. destruct (result r); reflexivity.
Qed.

Lemma run_bind {A B} (m : prog A) (f : A -> prog B) (w : W) :
  run E (bind m f) w = seq_result (run E m w) (fun a w' => run E (f a) w').
Proof.
  revert w. induction m as [a | e | c k IH]; intros w; simpl.
  - unfold seq_result; simpl. destruct (run E (f a) w); reflexivity.
  - reflexivity.
  - rewrite IH. apply after_seq_result.
Qed.

Lemma run_lift {A} (o : outcome A) (w : W) :
  run E (lift o) w = {| trace := []; result := o; final := w |}.
Proof. destruct o; reflexivity. Qed.

Lemma run_attempt {A} (m : prog A) (w : W) :
  run E (attempt m) w =
  {| trace := trace (run E m w); result := Ok (result (run E m w)); final := final (run E m w) |}.
Proof.
  revert w. induction m as [a | e | c k IH]; intros w; simpl; try reflexivity.
  rewrite IH. reflexivity.
Qed.

Lemma calls_after {A} ev (r : run_result W A) : calls (after ev r) = ev_call ev :: calls r.
Proof. reflexivity. Qed.

End Runs.

End RunLemmas.

(** * Lemmas on strings and JSON texts *)

Module TextLemmas.
Import PyStr Json Effects Rotator Observe.

Lemma app_cons c s t : String c s +:+ t = String c (s +:+ t).
Proof. reflexivity. Qed.

Lemma app_empty t : "" +:+ t = t.
Proof. reflexivity. Qed.

Lemma app_empty_r s : s +:+ "" = s.
Proof. induction s as [| c s IH]; [reflexivity |]. rewrite app_cons, IH. reflexivity. Qed.

Lemma app_assoc' s t u : (s +:+ t) +:+ u = s +:+ (t +:+ u).
Proof.
  induction s as [| c s IH]; [reflexivity |].
  rewrite !app_cons, IH. reflexivity.
Qed.

Lemma string_length_app s t : String.length (s +:+ t) = String.length s + String.length t.
Proof.
  induction s as [| c s IH]; [reflexivity |].
  rewrite app_cons. simpl. rewrite IH. reflexivity.
Qed.

Lemma all_chars_app p s t : all_chars p (s +:+ t) = all_chars p s && all_chars p t.
Proof.
  induction s as [| c s IH]; [reflexivity |].
  rewrite app_cons. simpl. rewrite IH. apply andb_assoc.
Qed.

Lemma all_chars_impl (p q : ascii -> bool) s :
  (forall c, p c = true -> q c = true) -> all_chars p s = true -> all_chars q s = true.
Proof.
  intros Hpq. induction s as [| c s IH]; simpl; [reflexivity |].
  intros [Hc Hs]%andb_true_iff. rewrite (Hpq c Hc), (IH Hs). reflexivity.
Qed.

(** ** [replace] *)

Lemma replace_app old new s t :
  replace old new (s +:+ t) = replace old new s +:+ replace old new t.
Proof.
  induction s as [| c s IH]; [reflexivity |].
  rewrite app_cons. simpl. rewrite IH. destruct (Ascii.eqb c old).
  - symmetry. apply app_assoc'.
  - reflexivity.
Qed.

Lemma replace_absent old new s :
  all_chars (fun c => negb (Ascii.eqb c old)) s = true -> replace old new s = s.
Proof.
  induction s as [| c s IH]; simpl; [reflexivity |].
  intros [Hc Hs]%andb_true_iff. apply negb_true_iff in Hc. rewrite Hc, (IH Hs). reflexivity.
Qed.

(** ** The characters of the alphabet *)

Lemma unescaped_no_backslash c : unescaped c = true -> negb (Ascii.eqb c backslash) = true.
Proof. unfold unescaped. intros [_ H]%andb_true_iff. exact H. Qed.

Lemma unescaped_no_dquote c : unescaped c = true -> Ascii.eqb c dquote = false.
Proof.
  unfold unescaped. intros [[_ H]%andb_true_iff _]%andb_true_iff.
  apply negb_true_iff. exact H.
Qed.

Lemma unescaped_not_control c : unescaped c = true -> (code c <? 32)%N = false.
Proof.
  unfold unescaped. intros [[[H _]%andb_true_iff _]%andb_true_iff _]%andb_true_iff.
  apply N.leb_le in H. apply N.ltb_ge. exact H.
Qed.

Lemma plain_unescaped c : plain c = true -> unescaped c = true.
Proof. unfold plain. intros [H _]%andb_true_iff. exact H. Qed.

Lemma plain_no_apostrophe c : plain c = true -> negb (Ascii.eqb c apostrophe) = true.
Proof. unfold plain. intros [_ H]%andb_true_iff. exact H. Qed.

Lemma in_alphabet_plain c : in_alphabet c = true -> plain c = true.
Proof.
  destruct c as [[] [] [] [] [] [] [] []]; vm_compute; congruence.
Qed.

Lemma key_plain k : all_chars in_alphabet k = true -> all_chars plain k = true.
Proof. apply all_chars_impl, in_alphabet_plain. Qed.

Lemma plain_all_unescaped s : all_chars plain s = true -> all_chars unescaped s = true.
Proof. apply all_chars_impl, plain_unescaped. Qed.

(** ** Encoding and scanning a string without escapes *)

Lemma escape_unescaped s : all_chars unescaped s = true -> escape s = s.
Proof.
  induction s as [| c s IH]; simpl; [reflexivity |].
  intros [Hc Hs]%andb_true_iff. unfold escape_char. rewrite Hc, (IH Hs). reflexivity.
Qed.

Lemma encode_string_unescaped s rest :
  all_chars unescaped s = true -> encode_string s +:+ rest = quoted_then s rest.
Proof.
  intros H. unfold encode_string, quoted_then.
  rewrite (escape_unescaped s H), app_cons, app_assoc', app_cons, app_empty. reflexivity.
Qed.

Lemma scanstring_unescaped s rest :
  all_chars unescaped s = true -> scanstring (s +:+ String dquote rest) = Scanned s rest.
Proof.
  induction s as [| c s IH].
  - intros _. reflexivity.
  - simpl all_chars. intros [Hc Hs]%andb_true_iff. rewrite app_cons.
    simpl. rewrite (unescaped_no_dquote c Hc).
    pose proof (unescaped_no_backslash c Hc) as Hb. apply negb_true_iff in Hb.
    rewrite Hb, (unescaped_not_control c Hc), (IH Hs). reflexivity.
Qed.

Ltac norm_app := repeat (rewrite ?app_cons, ?app_assoc', ?app_empty).

Lemma dumps_payload a b c :
  all_chars unescaped a = true -> all_chars unescaped b = true -> all_chars unescaped c = true ->
  dumps (payload_of a b c) = payload_text a b c.
Proof.
  intros Ha Hb Hc. unfold payload_of, payload_text. simpl.
  unfold encode_string, quoted_then.
  rewrite !escape_unescaped by (assumption || reflexivity).
  norm_app. reflexivity.
Qed.

Lemma parse_string fuel s rest :
  all_chars unescaped s = true ->
  parse_value (S fuel) (String dquote (s +:+ String dquote rest)) = Scanned (JStr s) rest.
Proof.
  intros H. simpl. rewrite (scanstring_unescaped s rest H). reflexivity.
Qed.

Lemma parse_member_more n key v rest acc :
  n <> 0 -> all_chars unescaped key = true -> all_chars unescaped v = true ->
  parse_members (S n) (quoted_then key (": " +:+ quoted_then v (", " +:+ rest))) acc =
  parse_members n (skip_ws rest) (dict_set key (JStr v) acc).
Proof.
  intros Hn Hk Hv. destruct n as [| f]; [congruence |].
  remember (S f) as n eqn:En.
  unfold quoted_then. simpl.
  rewrite (scanstring_unescaped key _ Hk). norm_app. simpl.
  rewrite En, (parse_string f v _ Hv). simpl. reflexivity.
Qed.

Lemma parse_member_last n key v rest acc :
  n <> 0 -> all_chars unescaped key = true -> all_chars unescaped v = true ->
  parse_members (S n) (quoted_then key (": " +:+ quoted_then v (String "}" rest))) acc =
  Scanned (JObj (dict_set key (JStr v) acc)) rest.
Proof.
  intros Hn Hk Hv. destruct n as [| f]; [congruence |].
  remember (S f) as n eqn:En.
  unfold quoted_then. simpl.
  rewrite (scanstring_unescaped key _ Hk). norm_app. simpl.
  rewrite En, (parse_string f v _ Hv). simpl. reflexivity.
Qed.

Lemma parse_payload fuel a b c :
  5 <= fuel ->
  all_chars unescaped a = true -> all_chars unescaped b = true -> all_chars unescaped c = true ->
  parse_value fuel (payload_text a b c) = Scanned (payload_of a b c) "".
Proof.
  intros Hf Ha Hb Hc.
  destruct fuel as [| m]; [lia |].
  unfold payload_text.
  change (parse_members m
            (quoted_then "key1" (": " +:+ quoted_then a (", " +:+
             quoted_then "key2" (": " +:+ quoted_then b (", " +:+
             quoted_then "key3" (": " +:+ quoted_then c "}")))))) [] =
          Scanned (payload_of a b c) "").
  destruct m as [| m1]; [lia |].
  rewrite parse_member_more by (lia || assumption || reflexivity).
  change (skip_ws (quoted_then "key2" ?r)) with (quoted_then "key2" r).
  destruct m1 as [| m2]; [lia |].
  rewrite parse_member_more by (lia || assumption || reflexivity).
  change (skip_ws (quoted_then "key3" ?r)) with (quoted_then "key3" r).
  destruct m2 as [| m3]; [lia |].
  rewrite parse_member_last by (lia || assumption || reflexivity).
  reflexivity.
Qed.

Lemma loads_payload_text a b c :
  all_chars unescaped a = true -> all_chars unescaped b = true -> all_chars unescaped c = true ->
  loads (payload_text a b c) = Ok (payload_of a b c).
Proof.
  intros Ha Hb Hc. unfold loads.
  change (skip_ws (payload_text a b c)) with (payload_text a b c).
  rewrite parse_payload; try assumption.
  - reflexivity.
  - unfold payload_text, quoted_then. simpl. lia.
Qed.

(** ** The texts the two steps exchange *)

Lemma all_chars_payload_text p a b c :
  all_chars p (payload_text "" "" "") = true ->
  all_chars p a = true -> all_chars p b = true -> all_chars p c = true ->
  all_chars p (payload_text a b c) = true.
Proof.
  intros Hp Ha Hb Hc. unfold payload_text, quoted_then in *.
  norm_app. simpl in *. rewrite !all_chars_app. simpl. rewrite !all_chars_app. simpl.
  rewrite !all_chars_app. simpl. rewrite Ha, Hb, Hc.
  repeat match type of Hp with
         | (_ && _) = true => apply andb_true_iff in Hp; destruct Hp as [? Hp]
         end.
  repeat match goal with H : ?x = true |- context [?x] => rewrite H end.
  reflexivity.
Qed.

(** Stripping the backslashes leaves the text of a payload without escapes
    as it is: this is the string the create step stores. *)
Lemma stored_text a b c :
  all_chars unescaped a = true -> all_chars unescaped b = true -> all_chars unescaped c = true ->
  replace backslash "" (dumps (payload_of a b c)) = payload_text a b c.
Proof.
  intros Ha Hb Hc. rewrite dumps_payload by assumption.
  apply replace_absent. apply all_chars_payload_text; [reflexivity | | |];
    (eapply all_chars_impl; [exact unescaped_no_backslash | assumption]).
Qed.

(** The two replacements of the set step leave it as it is too. *)
Lemma set_text a b c :
  all_chars plain a = true -> all_chars plain b = true -> all_chars plain c = true ->
  replace backslash "" (replace apostrophe (String dquote "") (payload_text a b c)) =
  payload_text a b c.
Proof.
  intros Ha Hb Hc.
  rewrite (replace_absent apostrophe).
  - apply replace_absent. apply all_chars_payload_text; [reflexivity | | |];
      (eapply all_chars_impl; [| eassumption]; intros ch Hch;
       apply unescaped_no_backslash, plain_unescaped, Hch).
  - apply all_chars_payload_text; [reflexivity | | |];
      (eapply all_chars_impl; [exact plain_no_apostrophe | assumption]).
Qed.

End TextLemmas.

(** * Lemmas on the rule synchronizer *)

Module SyncLemmas.
Import PyStr Json Effects Rotator Observe RunLemmas.

Lemma is_api_key_condition_matches c b :
  is_api_key_condition c = Ok b -> matches_sentinel c = b.
Proof.
  unfold is_api_key_condition, matches_sentinel.
  destruct (Field c) as [field |]; [| congruence].
  destruct (String.eqb field "http-header"); [| destruct (HttpHeaderConfig c); simpl; congruence].
  destruct (HttpHeaderConfig c) as [config |]; simpl; congruence.
Qed.

Lemma rewritten_same key c : matches_sentinel c = false -> rewritten key c c.
Proof. unfold rewritten. intros ->. reflexivity. Qed.

Lemma set_values_middle key done c rest updated :
  matches_sentinel c = true ->
  set_values key (length done) (done ++ c :: rest) = Ok updated ->
  exists c', updated = done ++ c' :: rest /\ rewritten key c c'.
Proof.
  intros Hm. unfold set_values.
  rewrite list_lookup_middle by reflexivity.
  destruct (HttpHeaderConfig c) as [config |] eqn:Hc; [| congruence].
  destruct (Values config) as [old |]; [| congruence].
  intros [= <-]. eexists. split.
  - replace (length done) with (length done + 0) by lia.
    rewrite insert_app_r. reflexivity.
  - unfold rewritten. rewrite Hm. simpl. repeat split.
    exists config. eexists. repeat split. exact Hc.
Qed.

Lemma conditions_loop_spec key todo : forall done res,
  conditions_loop key (length todo) (length done) (done ++ todo) = Ok res ->
  exists todo', res = done ++ todo' /\ Forall2 (rewritten key) todo todo'.
Proof.
  induction todo as [| c rest IH]; intros done res; simpl.
  - intros [= <-]. exists []. split; [reflexivity | constructor].
  - rewrite list_lookup_middle by reflexivity.
    destruct (is_api_key_condition c) as [[] |] eqn:Hc; [| | congruence].
    + apply is_api_key_condition_matches in Hc.
      destruct (set_values key (length done) (done ++ c :: rest)) as [updated |] eqn:Hs;
        [| congruence].
      destruct (set_values_middle _ _ _ _ _ Hc Hs) as (c' & -> & Hr).
      intros H.
      replace (S (length done)) with (length (done ++ [c'])) in H
        by (rewrite length_app; simpl; lia).
      replace (done ++ c' :: rest) with ((done ++ [c']) ++ rest) in H
        by (rewrite <- app_assoc; reflexivity).
      destruct (IH _ _ H) as (todo' & -> & HF).
      exists (c' :: todo'). split; [rewrite <- app_assoc; reflexivity | constructor; assumption].
    + apply is_api_key_condition_matches in Hc. intros H.
      replace (S (length done)) with (length (done ++ [c])) in H
        by (rewrite length_app; simpl; lia).
      replace (done ++ c :: rest) with ((done ++ [c]) ++ rest) in H
        by (rewrite <- app_assoc; reflexivity).
      destruct (IH _ _ H) as (todo' & -> & HF).
      exists (c :: todo'). split; [rewrite <- app_assoc; reflexivity |].
      constructor; [apply rewritten_same, Hc | assumption].
Qed.

Lemma update_conditions_spec key conditions updated :
  update_conditions key conditions = Ok updated ->
  Forall2 (rewritten key) conditions updated.
Proof.
  unfold update_conditions. intros H.
  destruct (conditions_loop_spec key conditions [] updated H) as (todo' & -> & HF).
  exact HF.
Qed.

Lemma update_conditions_unmatched key conditions updated :
  forallb (fun c => negb (matches_sentinel c)) conditions = true ->
  update_conditions key conditions = Ok updated ->
  updated = conditions.
Proof.
  intros Hall H. apply update_conditions_spec in H.
  induction H as [| c c' l l' Hr HF IH]; [reflexivity |].
  simpl in Hall. apply andb_true_iff in Hall as [Hc Hl].
  unfold rewritten in Hr. apply negb_true_iff in Hc. rewrite Hc in Hr.
  rewrite Hr, (IH Hl). reflexivity.
Qed.

Section Sync.
Context {W : Type} (E : env W) (key : json).

Lemma updates_app t1 t2 : updates (t1 ++ t2) = updates t1 ++ updates t2.
Proof. unfold updates. rewrite List.map_app, List.filter_app. reflexivity. Qed.

Lemma rules_seen_app t1 t2 : rules_seen (t1 ++ t2) = rules_seen t1 ++ rules_seen t2.
Proof. apply List.flat_map_app. Qed.

Lemma tracks_seq {A B} (r : run_result W A) (next : A -> W -> run_result W B) :
  tracks key r -> (forall a w, tracks key (next a w)) -> tracks key (seq_result r next).
Proof.
  intros (rest1 & H1 & Hok1) Hnext. unfold seq_result.
  destruct (result r) as [a | e] eqn:Hr.
  - destruct (Hok1 eq_refl) as [-> Hall1]. rewrite app_nil_r in H1.
    destruct (Hnext a (final r)) as (rest2 & H2 & Hok2).
    exists rest2. simpl.
    rewrite updates_app, rules_seen_app, List.filter_app, List.flat_map_app, <- H1, <- H2.
    split; [rewrite <- app_assoc; reflexivity |].
    intros Hok. destruct (Hok2 Hok) as [-> Hall2]. split; [reflexivity |].
    rewrite List.forallb_app, Hall1, Hall2. reflexivity.
  - exists rest1. simpl. split; [exact H1 | discriminate].
Qed.

Lemma tracks_bind {A B} (m : prog A) (f : A -> prog B) w :
  tracks key (run E m w) -> (forall a w', tracks key (run E (f a) w')) ->
  tracks key (run E (bind m f) w).
Proof. intros Hm Hf. rewrite run_bind. apply tracks_seq; assumption. Qed.

Lemma tracks_silent {A} (o : outcome A) (w : W) :
  tracks key {| trace := []; result := o; final := w |}.
Proof. exists []. simpl. split; [reflexivity | intros _; split; reflexivity]. Qed.

Lemma tracks_ret {A} (a : A) w : tracks key (run E (Ret a) w).
Proof. apply tracks_silent. Qed.

Lemma tracks_after {A} ev (r : run_result W A) :
  is_modify (ev_call ev) = false -> rules_of ev = [] ->
  tracks key r -> tracks key (after ev r).
Proof.
  intros Hm Hr (rest & H & Hok). exists rest. unfold after, updates, rules_seen in *. simpl.
  rewrite Hm, Hr. simpl. split; assumption.
Qed.

Lemma tracks_for_each {X} (body : X -> prog unit) (l : list X) :
  (forall x w, tracks key (run E (body x) w)) ->
  forall w, tracks key (run E (for_each l body) w).
Proof.
  intros Hbody. induction l as [| x l IH]; intros w; simpl.
  - apply tracks_ret.
  - apply tracks_bind; [apply Hbody | intros _ w'; apply IH].
Qed.

Lemma run_update_rule rule w :
  run E (update_rule key rule) w =
  if IsDefault rule then {| trace := []; result := Ok tt; final := w |}
  else
    match update_conditions key (Conditions rule) with
    | Ok conditions =>
        {| trace := [Ev (ModifyRule (RuleArn rule) conditions (Actions rule))
                        (Done (ask E (ModifyRule (RuleArn rule) conditions (Actions rule)) w))];
           result := ask E (ModifyRule (RuleArn rule) conditions (Actions rule)) w;
           final := next E (ModifyRule (RuleArn rule) conditions (Actions rule)) w |}
    | Raised e => {| trace := []; result := Raised e; final := w |}
    end.
Proof.
  unfold update_rule. destruct (IsDefault rule); [reflexivity |].
  rewrite run_bind, run_lift. unfold seq_result. simpl.
  destruct (update_conditions key (Conditions rule)) as [conditions | e]; [| reflexivity].
  unfold after. simpl. rewrite run_lift. reflexivity.
Qed.

Lemma rules_loop_tracks rules : forall w,
  rules_seen (trace (run E (for_each rules (update_rule key)) w)) = [] /\
  exists rest,
    updates (trace (run E (for_each rules (update_rule key)) w)) ++ rest =
    flat_map (update_for key) (List.filter non_default rules) /\
    (is_ok (result (run E (for_each rules (update_rule key)) w)) = true ->
     rest = [] /\ forallb (updatable key) (List.filter non_default rules) = true).
Proof.
  induction rules as [| rule rules IH]; intros w.
  - simpl. split; [reflexivity |]. exists []. repeat split.
  - simpl for_each. rewrite run_bind, run_update_rule.
    simpl List.filter.
    destruct (IsDefault rule) eqn:Hd.
    + replace (non_default rule) with false by (unfold non_default; rewrite Hd; reflexivity).
      unfold seq_result. simpl. apply IH.
    + replace (non_default rule) with true by (unfold non_default; rewrite Hd; reflexivity).
      simpl flat_map. simpl forallb. unfold update_for at 1, updatable at 1.
      destruct (update_conditions key (Conditions rule)) as [conditions | e];
        unfold seq_result; simpl.
      * destruct (ask E (ModifyRule (RuleArn rule) conditions (Actions rule)) w) as [[] | e]; simpl.
        -- destruct (IH (next E (ModifyRule (RuleArn rule) conditions (Actions rule)) w))
             as (Hseen & rest & Hup & Hok).
           split; [exact Hseen |]. exists rest. unfold updates in *. simpl.
           rewrite Hup. split; [reflexivity | exact Hok].
        -- split; [reflexivity |]. eexists. unfold updates. simpl.
           split; [reflexivity | discriminate].
      * split; [reflexivity |]. eexists. unfold updates. simpl.
        split; [reflexivity | discriminate].
Qed.

Lemma tracks_update_listener listener w : tracks key (run E (update_listener key listener) w).
Proof.
  unfold update_listener, describe_rules. simpl.
  destruct (ask E (DescribeRules (ListenerArn listener)) w) as [rules | e]; simpl.
  - destruct (rules_loop_tracks rules (next E (DescribeRules (ListenerArn listener)) w))
      as (Hseen & rest & Hup & Hok).
    exists rest. unfold after, updates, rules_seen in *. simpl.
    rewrite Hseen. unfold rules_of. simpl. rewrite !app_nil_r. split; assumption.
  - exists []. unfold after, updates, rules_seen. simpl. split; [reflexivity | discriminate].
Qed.

Lemma tracks_update_alb alb w : tracks key (run E (update_alb key alb) w).
Proof.
  unfold update_alb, environ_get. simpl.
  apply tracks_after; [reflexivity | reflexivity |].
  match goal with |- context [if ?b then _ else _] => destruct b end.
  - unfold describe_listeners. simpl. apply tracks_after; [reflexivity | reflexivity |].
    destruct (ask E (DescribeListeners (LoadBalancerArn alb)) _) as [listeners | e]; simpl.
    + apply tracks_for_each. apply tracks_update_listener.
    + apply tracks_silent.
  - apply tracks_ret.
Qed.

Lemma tracks_set_api_key_in_alb w : tracks key (run E (set_api_key_in_alb key) w).
Proof.
  unfold set_api_key_in_alb.
  assert (Hgo : tracks key
            (run E (let! response := describe_load_balancers in
                    match response with
                    | Some albs => for_each albs (update_alb key)
                    | None => Ret tt
                    end ;;; Ret 0%Z) w)).
  { unfold describe_load_balancers. simpl.
    apply tracks_after; [reflexivity | reflexivity |].
    destruct (ask E DescribeLoadBalancers w) as [[albs |] | e]; simpl.
    - apply tracks_bind; [| intros; apply tracks_ret].
      apply tracks_for_each. apply tracks_update_alb.
    - apply tracks_silent.
    - apply tracks_silent. }
  destruct key; try exact Hgo. apply tracks_ret.
Qed.

End Sync.

(** ** From the updates of a run back to the rules, and forth *)

Section Origin.
Context {W : Type} (E : env W) (key : json).

Lemma in_update_for c rule :
  In c (update_for key rule) ->
  exists conditions,
    update_conditions key (Conditions rule) = Ok conditions /\
    c = ModifyRule (RuleArn rule) conditions (Actions rule).
Proof.
  unfold update_for. destruct (update_conditions key (Conditions rule)) as [conditions | e].
  - intros [<- | []]. eauto.
  - intros [].
Qed.

Lemma update_origin {A} (r : run_result W A) arn conditions actions :
  tracks key r ->
  In (ModifyRule arn conditions actions) (calls r) ->
  exists rule,
    In rule (rules_seen (trace r)) /\ IsDefault rule = false /\
    arn = RuleArn rule /\ actions = Actions rule /\
    update_conditions key (Conditions rule) = Ok conditions.
Proof.
  intros (rest & Hup & _) Hin.
  assert (Hin' : In (ModifyRule arn conditions actions) (updates (trace r) ++ rest)).
  { apply in_or_app. left. unfold updates. apply List.filter_In. split; [exact Hin | reflexivity]. }
  rewrite Hup in Hin'. apply List.in_flat_map in Hin' as (rule & Hrule & Hc).
  apply List.filter_In in Hrule as [Hseen Hnd].
  apply in_update_for in Hc as (conditions' & Hconds & [= -> -> ->]).
  exists rule. unfold non_default in Hnd. apply negb_true_iff in Hnd. auto.
Qed.

Lemma update_present {A} (r : run_result W A) rule :
  tracks key r ->
  is_ok (result r) = true ->
  In rule (rules_seen (trace r)) -> IsDefault rule = false ->
  exists conditions,
    update_conditions key (Conditions rule) = Ok conditions /\
    In (ModifyRule (RuleArn rule) conditions (Actions rule)) (calls r).
Proof.
  intros (rest & Hup & Hok) Hres Hseen Hnd.
  destruct (Hok Hres) as [-> Hall]. rewrite app_nil_r in Hup.
  assert (Hrule : In rule (List.filter non_default (rules_seen (trace r)))).
  { apply List.filter_In. split; [exact Hseen |]. unfold non_default. rewrite Hnd. reflexivity. }
  rewrite List.forallb_forall in Hall. specialize (Hall rule Hrule).
  unfold updatable in Hall.
  destruct (update_conditions key (Conditions rule)) as [conditions | e] eqn:Hc; [| discriminate].
  exists conditions. split; [reflexivity |].
  assert (Hin : In (ModifyRule (RuleArn rule) conditions (Actions rule)) (updates (trace r))).
  { rewrite Hup. apply List.in_flat_map. exists rule. split; [exact Hrule |].
    unfold update_for. rewrite Hc. left. reflexivity. }
  unfold updates in Hin. apply List.filter_In in Hin as [Hin _]. exact Hin.
Qed.

Lemma updates_rule_own rule :
  List.filter (updates_rule (RuleArn rule)) (update_for key rule) = update_for key rule.
Proof.
  unfold update_for. destruct (update_conditions key (Conditions rule)); [| reflexivity].
  simpl. rewrite String.eqb_refl. reflexivity.
Qed.

Lemma updates_rule_other arn rule :
  RuleArn rule <> arn -> List.filter (updates_rule arn) (update_for key rule) = [].
Proof.
  intros Hne. unfold update_for. destruct (update_conditions key (Conditions rule)); [| reflexivity].
  simpl. apply String.eqb_neq in Hne. rewrite Hne. reflexivity.
Qed.

Lemma updates_rule_absent arn rules :
  ~ In arn (List.map RuleArn rules) ->
  List.filter (updates_rule arn) (flat_map (update_for key) (List.filter non_default rules)) = [].
Proof.
  induction rules as [| x rules IH]; [reflexivity |].
  intros Hnot. simpl in Hnot. simpl List.filter.
  assert (Hx : RuleArn x <> arn) by (intros Heq; apply Hnot; left; exact Heq).
  assert (Hr : ~ In arn (List.map RuleArn rules)) by (intros Hin; apply Hnot; right; exact Hin).
  destruct (non_default x); [| exact (IH Hr)].
  simpl flat_map. rewrite List.filter_app, (updates_rule_other arn x Hx), (IH Hr). reflexivity.
Qed.

Lemma updates_rule_single rule rules :
  NoDup (List.map RuleArn rules) -> In rule rules -> IsDefault rule = false ->
  List.filter (updates_rule (RuleArn rule))
    (flat_map (update_for key) (List.filter non_default rules)) = update_for key rule.
Proof.
  induction rules as [| x rules IH]; [intros _ [] |].
  simpl List.map. intros [Hx Hnd]%NoDup_cons Hin Hdef.
  assert (Hx' : ~ In (RuleArn x) (List.map RuleArn rules)).
  { intros H. apply Hx. apply list_elem_of_In. exact H. }
  simpl List.filter. destruct Hin as [-> | Hin].
  - replace (non_default rule) with true by (unfold non_default; rewrite Hdef; reflexivity).
    simpl flat_map.
    rewrite List.filter_app, updates_rule_own, (updates_rule_absent _ _ Hx'), app_nil_r.
    reflexivity.
  - assert (Hne : RuleArn x <> RuleArn rule).
    { intros Heq. apply Hx'. rewrite Heq. apply List.in_map. exact Hin. }
    destruct (non_default x); [| exact (IH Hnd Hin Hdef)].
    simpl flat_map.
    rewrite List.filter_app, (updates_rule_other _ x Hne), (IH Hnd Hin Hdef). reflexivity.
Qed.

Lemma updates_rule_of_updates arn (l : list call) :
  List.filter (updates_rule arn) (List.filter is_modify l) = List.filter (updates_rule arn) l.
Proof.
  induction l as [| c l IH]; [reflexivity |].
  simpl. destruct c; simpl; try exact IH. rewrite IH. reflexivity.
Qed.

End Origin.

End SyncLemmas.

(** * Lemmas on the steps *)

Module StepLemmas.
Import PyStr Json Effects Rotator Observe TextLemmas RunLemmas.

Lemma char_in_alphabet i :
  in_alphabet (char_at (i mod String.length chars) chars "000"%char) = true.
Proof.
  assert (H : i mod String.length chars < 62) by (apply Nat.mod_upper_bound; discriminate).
  revert H. generalize (i mod String.length chars). intros j Hj.
  do 62 (destruct j as [| j]; [reflexivity |]). lia.
Qed.

Section Steps.
Context {W : Type} (E : env W).

Lemma run_vis {A} c (k : reply c -> prog A) w :
  run E (Vis c k) w = after (Ev c (answer_of c (ask E c w))) (run E (k (ask E c w)) (next E c w)).
Proof. reflexivity. Qed.

Lemma run_random_choice seq w :
  run E (random_choice seq) w =
  {| trace := [Ev (RandBelow (String.length seq)) (Drawn (ask E (RandBelow (String.length seq)) w))];
     result := Ok (char_at (ask E (RandBelow (String.length seq)) w mod String.length seq) seq "000"%char);
     final := next E (RandBelow (String.length seq)) w |}.
Proof. reflexivity. Qed.

Lemma key_generator_S n :
  key_generator (S n) =
  (let! c := random_choice chars in let! r := key_generator n in Ret (String c r)).
Proof. reflexivity. Qed.

Lemma key_generator_run n : forall w,
  exists k,
    result (run E (key_generator n) w) = Ok k /\
    String.length k = n /\ all_chars in_alphabet k = true /\
    calls (run E (key_generator n) w) = repeat (RandBelow (String.length chars)) n.
Proof.
  induction n as [| n IH]; intros w.
  - exists "". repeat split.
  - rewrite key_generator_S, run_bind, run_random_choice.
    unfold seq_result. cbn [result trace final]. rewrite run_bind.
    destruct (IH (next E (RandBelow (String.length chars)) w)) as (k & Hk & Hlen & Hall & Hcalls).
    unfold seq_result. rewrite Hk. cbn [result trace final run].
    eexists. split; [reflexivity |]. split; [simpl; rewrite Hlen; reflexivity |].
    split.
    + cbn [all_chars]. rewrite char_in_alphabet, Hall. reflexivity.
    + unfold calls in *. cbn [trace]. rewrite app_nil_r. cbn [List.map app ev_call repeat].
      rewrite Hcalls. reflexivity.
Qed.


Lemma run_get_secret_value sid vid stage w :
  run E (get_secret_value sid vid stage) w =
  {| trace := [Ev (GetSecretValue sid vid stage) (SecretValue (ask E (GetSecretValue sid vid stage) w))];
     result := ask E (GetSecretValue sid vid stage) w;
     final := next E (GetSecretValue sid vid stage) w |}.
Proof. unfold get_secret_value. rewrite run_vis, run_lift. reflexivity. Qed.

Lemma run_put_secret_value sid token s stages w :
  run E (put_secret_value sid token s stages) w =
  {| trace := [Ev (PutSecretValue sid token s stages) (Done (ask E (PutSecretValue sid token s stages) w))];
     result := ask E (PutSecretValue sid token s stages) w;
     final := next E (PutSecretValue sid token s stages) w |}.
Proof. unfold put_secret_value. rewrite run_vis, run_lift. reflexivity. Qed.

Lemma run_describe_secret sid w :
  run E (describe_secret sid) w =
  {| trace := [Ev (DescribeSecret sid) (Metadata (ask E (DescribeSecret sid) w))];
     result := ask E (DescribeSecret sid) w;
     final := next E (DescribeSecret sid) w |}.
Proof. unfold describe_secret. rewrite run_vis, run_lift. reflexivity. Qed.

Lemma run_update_secret_version_stage sid stage move_to remove_from w :
  run E (update_secret_version_stage sid stage move_to remove_from) w =
  {| trace := [Ev (UpdateSecretVersionStage sid stage move_to remove_from)
                  (Done (ask E (UpdateSecretVersionStage sid stage move_to remove_from) w))];
     result := ask E (UpdateSecretVersionStage sid stage move_to remove_from) w;
     final := next E (UpdateSecretVersionStage sid stage move_to remove_from) w |}.
Proof. unfold update_secret_version_stage. rewrite run_vis, run_lift. reflexivity. Qed.

Lemma run_get_secret sid stage token w :
  run E (get_secret sid stage token) w =
  {| trace := [Ev (GetSecretValue sid None stage) (SecretValue (ask E (GetSecretValue sid None stage) w))];
     result := match ask E (GetSecretValue sid None stage) w with
               | Ok (Some s) => Ok s
               | Ok None => Raised (KeyError "SecretString")
               | Raised e => Raised e
               end;
     final := next E (GetSecretValue sid None stage) w |}.
Proof.
  unfold get_secret. rewrite run_bind, run_get_secret_value. unfold seq_result.
  cbn [result trace final].
  destruct (ask E (GetSecretValue sid None stage) w) as [[s |] | e]; reflexivity.
Qed.

End Steps.

(** One step of a run: sequencing, then the call at its head. *)
Ltac run_step :=
  repeat progress
    (rewrite ?run_bind, ?run_lift, ?run_attempt, ?run_get_secret, ?run_get_secret_value,
       ?run_put_secret_value, ?run_describe_secret, ?run_update_secret_version_stage;
     unfold seq_result; cbn [result trace final]).

Section Handlers.
Context {W : Type} (E : env W).

Lemma create_secret_fresh sid token s old v2 v3 w :
  ask E (GetSecretValue sid None "AWSCURRENT") w = Ok (Some s) ->
  loads s = Ok old ->
  subscript old "key2" = Ok v2 ->
  subscript old "key3" = Ok v3 ->
  ask E (GetSecretValue sid (Some token) "AWSPENDING") (next E (GetSecretValue sid None "AWSCURRENT") w)
  = Raised ResourceNotFoundException ->
  exists k,
    result (run E (key_generator 16)
              (next E (GetSecretValue sid (Some token) "AWSPENDING")
                 (next E (GetSecretValue sid None "AWSCURRENT") w))) = Ok k /\
    is_key k /\
    calls (run E (create_secret sid token) w) =
    [GetSecretValue sid None "AWSCURRENT"; GetSecretValue sid (Some token) "AWSPENDING"]
    ++ repeat (RandBelow (String.length chars)) 16
    ++ [PutSecretValue sid token
          (replace backslash "" (dumps (JObj [("key1", v2); ("key2", v3); ("key3", JStr k)])))
          ["AWSPENDING"]].
Proof.
  intros Hcur Hloads Hk2 Hk3 Hpend.
  destruct (key_generator_run E 16
              (next E (GetSecretValue sid (Some token) "AWSPENDING")
                 (next E (GetSecretValue sid None "AWSCURRENT") w)))
    as (k & Hk & Hlen & Hall & Hcalls).
  exists k. split; [exact Hk |]. split; [split; assumption |].
  unfold create_secret. run_step. rewrite Hcur. cbn [result trace final].
  run_step. rewrite Hloads. run_step. rewrite Hpend. run_step.
  run_step. rewrite Hk2. run_step. rewrite Hk3. run_step. rewrite Hk. run_step.
  unfold calls in *. cbn [trace]. 
  destruct (ask E (PutSecretValue _ _ _ _) _); cbn [trace run];
    rewrite ?app_nil_r, ?app_nil_l; rewrite !List.map_app, Hcalls; reflexivity.
Qed.


Lemma key_generator_events n w ev :
  In ev (trace (run E (key_generator n) w)) -> is_draw (ev_call ev) = true.
Proof.
  intros Hin. destruct (key_generator_run E n w) as (k & _ & _ & _ & Hcalls).
  apply (List.in_map ev_call) in Hin. fold (calls (run E (key_generator n) w)) in Hin.
  rewrite Hcalls in Hin. apply repeat_spec in Hin. rewrite Hin. reflexivity.
Qed.





(** ** The set step *)

Lemma set_api_key_in_alb_result key w z :
  key <> JNull -> result (run E (set_api_key_in_alb key) w) = Ok z -> z = 0%Z.
Proof.
  intros Hkey. unfold set_api_key_in_alb.
  assert (Hgo : result (run E (let! response := describe_load_balancers in
                    match response with
                    | Some albs => for_each albs (update_alb key)
                    | None => Ret tt
                    end ;;; Ret 0%Z) w) = Ok z -> z = 0%Z).
  { rewrite run_bind. unfold seq_result.
    destruct (result (run E describe_load_balancers w)); cbn [result]; [| discriminate].
    rewrite run_bind. unfold seq_result.
    match goal with |- context [match ?r with Ok _ => _ | Raised _ => _ end] => destruct r end;
      cbn [result run]; [| discriminate].
    intros [= <-]. reflexivity. }
  destruct key; try exact Hgo. congruence.
Qed.

Lemma set_secret_pushes sid token b c k w :
  all_chars plain b = true -> all_chars plain c = true -> all_chars plain k = true ->
  ask E (GetSecretValue sid None "AWSPENDING") w = Ok (Some (payload_text b c k)) ->
  run E (set_secret sid token) w =
  after (Ev (GetSecretValue sid None "AWSPENDING") (SecretValue (Ok (Some (payload_text b c k)))))
        (run E (set_api_key_in_alb (JStr k)) (next E (GetSecretValue sid None "AWSPENDING") w)).
Proof.
  intros Hb Hc Hk Hask. unfold set_secret. run_step. rewrite Hask. run_step.
  rewrite set_text by assumption.
  rewrite loads_payload_text by (apply plain_all_unescaped; assumption).
  run_step. change (subscript (payload_of b c k) "key3") with (Ok (JStr k)). run_step.
  pose proof (set_api_key_in_alb_result (JStr k) (next E (GetSecretValue sid None "AWSPENDING") w)) as Hz.
  destruct (run E (set_api_key_in_alb (JStr k)) (next E (GetSecretValue sid None "AWSPENDING") w))
    as [t o f].
  unfold after. cbn [result trace final run app] in *.
  destruct o as [z | e]; cbn [result trace final run app].
  - rewrite (Hz z) by congruence. rewrite app_nil_r. reflexivity.
  - reflexivity.
Qed.

(** ** The finish step *)

Lemma dict_get_In {V} k (d : list (string * V)) v : dict_get k d = Some v -> In (k, v) d.
Proof.
  induction d as [| [k' v'] d IH]; simpl; [discriminate |].
  destruct (String.eqb k k') eqn:Hk.
  - apply String.eqb_eq in Hk. intros [= ->]. left. congruence.
  - intros H. right. apply IH, H.
Qed.

Lemma dict_get_key {V} k (d : list (string * V)) :
  In k (List.map fst d) -> exists v, dict_get k d = Some v.
Proof.
  induction d as [| [k' v'] d IH]; simpl; [intros [] |].
  destruct (String.eqb k k') eqn:Hk; [eauto |].
  intros [Heq | Hin]; [| apply IH, Hin].
  apply String.eqb_neq in Hk. congruence.
Qed.

Lemma scan_versions_current token metadata :
  current_only_on token metadata ->
  scan_versions token (VersionIdsToStages metadata)
    (List.map fst (VersionIdsToStages metadata)) = Ok AlreadyCurrent.
Proof.
  intros [(stages & Hget & Hcur) Honly].
  assert (Hin : In token (List.map fst (VersionIdsToStages metadata))).
  { apply dict_get_In in Hget. apply (List.in_map fst) in Hget. exact Hget. }
  assert (Hdom : forall v, In v (List.map fst (VersionIdsToStages metadata)) ->
                           exists st, dict_get v (VersionIdsToStages metadata) = Some st).
  { intros v. apply dict_get_key. }
  revert Hin Hdom. generalize (List.map fst (VersionIdsToStages metadata)) as keys.
  induction keys as [| v keys IH]; simpl; [intros [] |].
  intros Hin Hdom. destruct (Hdom v (or_introl eq_refl)) as (st & Hst). rewrite Hst.
  destruct (list_mem "AWSCURRENT" st) eqn:Hmem.
  - rewrite (Honly v st (dict_get_In _ _ _ Hst) Hmem), String.eqb_refl. reflexivity.
  - destruct Hin as [-> | Hin]; [congruence |].
    apply IH; [exact Hin | intros v' Hv'; apply Hdom; right; exact Hv'].
Qed.

Lemma finish_secret_settled sid token w :
  (forall metadata,
     ask E (DescribeSecret sid) (next E (GetSecretValue sid None "AWSPENDING") w) = Ok metadata ->
     current_only_on token metadata) ->
  List.filter is_stage_move (calls (run E (finish_secret sid token) w)) = [] /\
  (forall s metadata,
     ask E (GetSecretValue sid None "AWSPENDING") w = Ok (Some s) ->
     ask E (DescribeSecret sid) (next E (GetSecretValue sid None "AWSPENDING") w) = Ok metadata ->
     calls (run E (finish_secret sid token) w) =
       [GetSecretValue sid None "AWSPENDING"; DescribeSecret sid] /\
     is_ok (result (run E (finish_secret sid token) w)) = true).
Proof.
  intros Hcur. unfold finish_secret. run_step.
  destruct (ask E (GetSecretValue sid None "AWSPENDING") w) as [[s |] | e];
    cbn [result trace final];
    try (split; [reflexivity | intros ? ? [=]]).
  run_step.
  destruct (ask E (DescribeSecret sid) (next E (GetSecretValue sid None "AWSPENDING") w))
    as [metadata | e]; cbn [result trace final].
  - run_step. rewrite (scan_versions_current token metadata (Hcur metadata eq_refl)).
    cbn [result trace final run]. split; [reflexivity |]. intros ? ? _ _. split; reflexivity.
  - split; [reflexivity |]. intros ? ? _ [=].
Qed.

(** ** The entry point *)

Lemma lambda_handler_validation event w :
  run E (lambda_handler event tt) w =
  after (Ev (DescribeSecret (SecretId event)) (Metadata (ask E (DescribeSecret (SecretId event)) w)))
    match ask E (DescribeSecret (SecretId event)) w with
    | Raised e =>
        {| trace := []; result := Raised e; final := next E (DescribeSecret (SecretId event)) w |}
    | Ok metadata =>
        run E
          (if negb (RotationEnabled metadata) then
             Raise (ValueError (not_enabled_message (SecretId event)))
           else
             match dict_get (token_of event) (VersionIdsToStages metadata) with
             | None => Raise (ValueError (no_stage_message (token_of event) (SecretId event)))
             | Some stages =>
                 if list_mem "AWSCURRENT" stages then Ret None
                 else if negb (list_mem "AWSPENDING" stages) then
                   Raise (ValueError (not_pending_message (token_of event) (SecretId event)))
                 else
                   (if String.eqb (lower (Step event)) "createsecret" then
                      create_secret (SecretId event) (token_of event) ;;; Ret tt
                    else if String.eqb (lower (Step event)) "setsecret" then
                      set_secret (SecretId event) (token_of event) ;;; Ret tt
                    else if String.eqb (lower (Step event)) "testsecret" then
                      test_secret (SecretId event) (token_of event) ;;; Ret tt
                    else if String.eqb (lower (Step event)) "finishsecret" then
                      finish_secret (SecretId event) (token_of event) ;;; Ret tt
                    else Ret tt) ;;;
                   Ret (Some done_response)
             end)
          (next E (DescribeSecret (SecretId event)) w)
    end.
Proof.
  unfold lambda_handler, describe_secret. rewrite run_bind, run_vis, run_lift.
  unfold seq_result, after. cbn [result trace final].
  destruct (ask E (DescribeSecret (SecretId event)) w) as [metadata | e]; reflexivity.
Qed.

(** Every step handler starts by reading the secret: a run that invoked one
    shows a [GetSecretValue]. *)
Lemma handlers_read_first sid token w :
  (exists rest, calls (run E (create_secret sid token) w) = GetSecretValue sid None "AWSCURRENT" :: rest) /\
  (exists rest, calls (run E (set_secret sid token) w) = GetSecretValue sid None "AWSPENDING" :: rest) /\
  (exists rest, calls (run E (test_secret sid token) w) = GetSecretValue sid None "AWSCURRENT" :: rest) /\
  (exists rest, calls (run E (finish_secret sid token) w) = GetSecretValue sid None "AWSPENDING" :: rest).
Proof.
  unfold create_secret, set_secret, test_secret, finish_secret.
  repeat split; rewrite run_bind, run_get_secret; unfold seq_result; cbn [result trace final];
    match goal with |- context [match ?o with Ok _ => _ | Raised _ => _ end] => destruct o end;
    unfold calls; cbn [trace List.map app ev_call]; eexists; reflexivity.
Qed.

End Handlers.

End StepLemmas.

(** * The claims *)

Import PyStr Json Effects Rotator Observe TextLemmas RunLemmas SyncLemmas StepLemmas.

(** Membership in a concrete list. *)
Ltac found := vm_compute; repeat (first [left; reflexivity | right]).

(** C1 (amended).  The create step, on a secret whose current payload holds
    [b] under [key2] and [c] under [key3], both made of characters that
    [json.dumps] prints as they are, and with no pending version for the
    token: it reads the current payload, looks the pending version up, draws
    sixteen characters [k] of the alphabet and stores, under the token and
    the label AWSPENDING, a text that decodes to key1 = [b], key2 = [c],
    key3 = [k]. *)
Theorem create_secret_chains_payload {W} (E : env W) (w : W) (sid token s : string)
  (old : json) (b c : string) :
  ask E (GetSecretValue sid None "AWSCURRENT") w = Ok (Some s) ->
  loads s = Ok old ->
  subscript old "key2" = Ok (JStr b) ->
  subscript old "key3" = Ok (JStr c) ->
  ask E (GetSecretValue sid (Some token) "AWSPENDING")
    (next E (GetSecretValue sid None "AWSCURRENT") w) = Raised ResourceNotFoundException ->
  all_chars unescaped b = true ->
  all_chars unescaped c = true ->
  exists k stored,
    is_key k /\
    result (run E (key_generator 16)
              (next E (GetSecretValue sid (Some token) "AWSPENDING")
                 (next E (GetSecretValue sid None "AWSCURRENT") w))) = Ok k /\
    calls (run E (create_secret sid token) w) =
      [GetSecretValue sid None "AWSCURRENT"; GetSecretValue sid (Some token) "AWSPENDING"]
      ++ repeat (RandBelow (String.length chars)) 16
      ++ [PutSecretValue sid token stored ["AWSPENDING"]] /\
    loads stored = Ok (payload_of b c k).
Proof.
  intros Hcur Hloads Hk2 Hk3 Hpend Hb Hc.
  destruct (create_secret_fresh E sid token s old (JStr b) (JStr c) w Hcur Hloads Hk2 Hk3 Hpend)
    as (k & Hk & Hkey & Hcalls).
  assert (Hku : all_chars unescaped k = true)
    by (apply plain_all_unescaped, key_plain, Hkey).
  exists k, (payload_text b c k). split; [exact Hkey |]. split; [exact Hk |]. split.
  - rewrite Hcalls. fold (payload_of b c k). rewrite stored_text by assumption. reflexivity.
  - apply loads_payload_text; assumption.
Qed.

(** The create step on a payload of generated keys. *)
Lemma create_secret_chains_payload_witness :
  exists k stored,
    is_key k /\
    result (run Fake.handle (key_generator 16)
              (next Fake.handle (GetSecretValue "secret" (Some "new") "AWSPENDING")
                 (next Fake.handle (GetSecretValue "secret" None "AWSCURRENT") Fake.fresh))) = Ok k /\
    calls (run Fake.handle (create_secret "secret" "new") Fake.fresh) =
      [GetSecretValue "secret" None "AWSCURRENT"; GetSecretValue "secret" (Some "new") "AWSPENDING"]
      ++ repeat (RandBelow (String.length chars)) 16
      ++ [PutSecretValue "secret" "new" stored ["AWSPENDING"]] /\
    loads stored = Ok (payload_of "k0000000000000b" "k0000000000000c" k).
Proof.
  apply (create_secret_chains_payload Fake.handle Fake.fresh "secret" "new"
           (Fake.payload "k0000000000000a" "k0000000000000b" "k0000000000000c")
           (payload_of "k0000000000000a" "k0000000000000b" "k0000000000000c"));
    reflexivity.
Defined.

(** C1 as stated fails: the second slot of the current payload is [x\y], no
    pending version exists, and the payload stored has [xy] in its first
    slot. *)
Lemma create_secret_strips_backslash :
  let r := run Fake.handle (create_secret "secret" "new") Fake.with_backslash in
  ask Fake.handle (GetSecretValue "secret" None "AWSCURRENT") Fake.with_backslash
    = Ok (Some (Fake.payload "a" "x\y" "c")) /\
  loads (Fake.payload "a" "x\y" "c") = Ok (payload_of "a" "x\y" "c") /\
  ask Fake.handle (GetSecretValue "secret" (Some "new") "AWSPENDING")
    (next Fake.handle (GetSecretValue "secret" None "AWSCURRENT") Fake.with_backslash)
    = Raised ResourceNotFoundException /\
  List.filter is_put (calls r) =
    [PutSecretValue "secret" "new" (payload_text "xy" "c" "Ab1Bc2Cd3De4Ef59") ["AWSPENDING"]] /\
  loads (payload_text "xy" "c" "Ab1Bc2Cd3De4Ef59") = Ok (payload_of "xy" "c" "Ab1Bc2Cd3De4Ef59") /\
  ~ (exists k stored,
       In (PutSecretValue "secret" "new" stored ["AWSPENDING"]) (calls r) /\
       loads stored = Ok (payload_of "x\y" "c" k)).
Proof.
  repeat split; try reflexivity.
  intros (k & stored & Hin & Hloads). vm_compute in Hin.
  repeat (destruct Hin as [Hin | Hin]; [try discriminate Hin |]); [| contradiction].
  injection Hin as <-. vm_compute in Hloads. discriminate Hloads.
Qed.

(** C2.  The rule synchronizer never updates a default rule.  In every
    environment and for every key, the updates of a run are those owed to
    the rules it was shown that are not default rules, one for one and in
    order; each update carries the ARN of such a rule; and the loop body
    does nothing at all on a default rule. *)
Theorem default_rules_never_updated {W} (E : env W) (key : json) (w : W) :
  let r := run E (set_api_key_in_alb key) w in
  (exists rest,
     updates (trace r) ++ rest =
     flat_map (update_for key) (List.filter non_default (rules_seen (trace r)))) /\
  (forall arn conditions actions,
     In (ModifyRule arn conditions actions) (calls r) ->
     exists rule, In rule (rules_seen (trace r)) /\ IsDefault rule = false /\ RuleArn rule = arn) /\
  (forall rule w',
     IsDefault rule = true ->
     trace (run E (update_rule key rule) w') = [] /\
     final (run E (update_rule key rule) w') = w').
Proof.
  intros r. pose proof (tracks_set_api_key_in_alb E key w) as Ht. fold r in Ht.
  split; [| split].
  - destruct Ht as (rest & Hup & _). exists rest. exact Hup.
  - intros arn conditions actions Hin.
    destruct (update_origin key r arn conditions actions Ht Hin) as (rule & Hseen & Hnd & -> & _).
    exists rule. auto.
  - intros rule w' Hd. rewrite run_update_rule, Hd. split; reflexivity.
Qed.

(** The update of the first rule of the listener comes from a rule that is
    not a default rule. *)
Lemma default_rules_never_updated_witness :
  exists rule,
    In rule (rules_seen (trace (run Fake.handle (set_api_key_in_alb (JStr "newKey99")) Fake.fresh))) /\
    IsDefault rule = false /\ RuleArn rule = "rule/api".
Proof.
  apply (proj1 (proj2 (default_rules_never_updated Fake.handle (JStr "newKey99") Fake.fresh))
           "rule/api"
           [Fake.path_condition "/api/*"; Fake.api_key_condition ["newKey99"]]
           [Fake.forward "tg/api"]).
  found.
Defined.

(** C3 (the code at the failing input).  The token is already current:
    the entry point returns at line 326, with [None] and not with the
    response of line 363. *)
Theorem already_current_returns_no_response :
  let r := run Fake.handle (lambda_handler (Fake.event_for "finishSecret" "new") tt) Fake.finished in
  dict_get "new" (Fake.versions Fake.finished) = Some ["AWSPENDING"; "AWSCURRENT"] /\
  calls r = [DescribeSecret "secret"] /\
  result r = Ok None /\
  result r <> Ok (Some done_response).
Proof. repeat split; try reflexivity. discriminate. Qed.

(** C4 (amended).  A rule that is not a default rule and has no condition
    on the sentinel header is not skipped.  In a run that ends normally: the
    update owed to the rule is one call, which carries the rule's own
    condition list and action list; the updates of the run are those owed
    to the rules shown that are not default rules, one for one and in order;
    so the call is among the calls of the run; and when the rules shown have
    distinct ARNs, it is the only update of the run for the ARN of the
    rule. *)
Theorem unmatched_rule_update_unchanged {W} (E : env W) (key : json) (w : W) (rule : Rule) :
  let r := run E (set_api_key_in_alb key) w in
  is_ok (result r) = true ->
  In rule (rules_seen (trace r)) ->
  IsDefault rule = false ->
  forallb (fun c => negb (matches_sentinel c)) (Conditions rule) = true ->
  update_for key rule = [ModifyRule (RuleArn rule) (Conditions rule) (Actions rule)] /\
  updates (trace r) =
    flat_map (update_for key) (List.filter non_default (rules_seen (trace r))) /\
  In (ModifyRule (RuleArn rule) (Conditions rule) (Actions rule)) (calls r) /\
  (NoDup (List.map RuleArn (rules_seen (trace r))) ->
   List.filter (updates_rule (RuleArn rule)) (calls r) =
     [ModifyRule (RuleArn rule) (Conditions rule) (Actions rule)]).
Proof.
  intros r Hok Hseen Hnd Hnone.
  pose proof (tracks_set_api_key_in_alb E key w) as Ht. fold r in Ht.
  destruct (update_present key r rule Ht Hok Hseen Hnd) as (conditions & Hc & Hin).
  pose proof (update_conditions_unmatched key _ _ Hnone Hc) as ->.
  assert (Hown : update_for key rule = [ModifyRule (RuleArn rule) (Conditions rule) (Actions rule)]).
  { unfold update_for. rewrite Hc. reflexivity. }
  destruct Ht as (rest & Hup & Hrest). destruct (Hrest Hok) as [-> _].
  rewrite app_nil_r in Hup.
  split; [exact Hown |]. split; [exact Hup |]. split; [exact Hin |].
  intros Hdistinct.
  unfold calls. rewrite <- (updates_rule_of_updates (RuleArn rule)).
  fold (updates (trace r)). rewrite Hup, <- Hown.
  apply updates_rule_single; assumption.
Qed.

(** The rule on [/static/*] has no condition on the sentinel header, and the
    three rules of the listener have distinct ARNs. *)
Lemma unmatched_rule_update_unchanged_witness :
  let r := run Fake.handle (set_api_key_in_alb (JStr "newKey99")) Fake.fresh in
  NoDup (List.map RuleArn (rules_seen (trace r))) /\
  List.filter (updates_rule "rule/plain") (calls r) =
    [ModifyRule "rule/plain" [Fake.path_condition "/static/*"] [Fake.forward "tg/static"]].
Proof.
  intros r.
  assert (Hd : NoDup (List.map RuleArn (rules_seen (trace r)))).
  { apply NoDup_ListNoDup. vm_compute. repeat constructor; simpl; intuition discriminate. }
  split; [exact Hd |].
  apply (unmatched_rule_update_unchanged Fake.handle (JStr "newKey99") Fake.fresh Fake.plain_rule).
  - reflexivity.
  - found.
  - reflexivity.
  - reflexivity.
  - exact Hd.
Defined.

(** C4 as stated fails: the rule on [/static/*] is not a default rule, has no
    condition on the sentinel header, and an update is submitted for it. *)
Lemma unmatched_rule_is_resubmitted :
  let r := run Fake.handle (set_api_key_in_alb (JStr "newKey99")) Fake.fresh in
  In Fake.plain_rule (rules_seen (trace r)) /\
  IsDefault Fake.plain_rule = false /\
  forallb (fun c => negb (matches_sentinel c)) (Conditions Fake.plain_rule) = true /\
  ~ leaves_alone Fake.plain_rule r.
Proof.
  split; [found |].
  split; [reflexivity |]. split; [reflexivity |].
  intros H. apply (H [Fake.path_condition "/static/*"] [Fake.forward "tg/static"]).
  found.
Qed.

(** C5.  In the update submitted for a rule, the actions are the rule's, and
    the conditions are the rule's, one for one: a condition on the sentinel
    header has the values of its header configuration replaced by [[key]]
    and its other members kept, any other condition is kept whole.  Every
    update of a run is of this form, and in a run that ends normally every
    rule shown that is not a default rule has one. *)
Theorem only_sentinel_values_rewritten {W} (E : env W) (key : json) (w : W) :
  let r := run E (set_api_key_in_alb key) w in
  (forall arn conditions actions,
     In (ModifyRule arn conditions actions) (calls r) ->
     exists rule,
       In rule (rules_seen (trace r)) /\ IsDefault rule = false /\
       arn = RuleArn rule /\ actions = Actions rule /\
       Forall2 (rewritten key) (Conditions rule) conditions) /\
  (is_ok (result r) = true ->
   forall rule,
     In rule (rules_seen (trace r)) -> IsDefault rule = false ->
     exists conditions,
       In (ModifyRule (RuleArn rule) conditions (Actions rule)) (calls r) /\
       Forall2 (rewritten key) (Conditions rule) conditions).
Proof.
  intros r. pose proof (tracks_set_api_key_in_alb E key w) as Ht. fold r in Ht. split.
  - intros arn conditions actions Hin.
    destruct (update_origin key r arn conditions actions Ht Hin)
      as (rule & Hseen & Hnd & Harn & Hact & Hc).
    exists rule. repeat split; try assumption. apply update_conditions_spec, Hc.
  - intros Hok rule Hseen Hnd.
    destruct (update_present key r rule Ht Hok Hseen Hnd) as (conditions & Hc & Hin).
    exists conditions. split; [exact Hin | apply update_conditions_spec, Hc].
Qed.

(** One load balancer, one listener, a rule with a condition on the sentinel
    header and the values [old123]. *)
Lemma only_sentinel_values_rewritten_witness :
  exists conditions,
    In (ModifyRule (RuleArn Fake.api_rule) conditions (Actions Fake.api_rule))
       (calls (run Fake.handle (set_api_key_in_alb (JStr "newKey99")) Fake.fresh)) /\
    Forall2 (rewritten (JStr "newKey99")) (Conditions Fake.api_rule) conditions.
Proof.
  apply (proj2 (only_sentinel_values_rewritten Fake.handle (JStr "newKey99") Fake.fresh)).
  - reflexivity.
  - found.
  - reflexivity.
Defined.




(** C7 (amended).  The finish step when the token already holds AWSCURRENT.
    The entry point checks the label before it dispatches: it makes the one
    [DescribeSecret] call, moves no stage, and returns without raising
    exactly when rotation is enabled.  [finish_secret] itself, when
    AWSCURRENT is on no other version, moves no stage; and when the read of
    the pending payload and the metadata are answered, it makes these two
    calls and returns without raising. *)
Theorem finish_idempotent {W} (E : env W) (sid token : string) :
  (forall w event metadata stages,
     SecretId event = sid -> token_of event = token ->
     ask E (DescribeSecret sid) w = Ok metadata ->
     dict_get token (VersionIdsToStages metadata) = Some stages ->
     list_mem "AWSCURRENT" stages = true ->
     calls (run E (lambda_handler event tt) w) = [DescribeSecret sid] /\
     List.filter is_stage_move (calls (run E (lambda_handler event tt) w)) = [] /\
     is_ok (result (run E (lambda_handler event tt) w)) = RotationEnabled metadata) /\
  (forall w,
     (forall metadata,
        ask E (DescribeSecret sid) (next E (GetSecretValue sid None "AWSPENDING") w) = Ok metadata ->
        current_only_on token metadata) ->
     List.filter is_stage_move (calls (run E (finish_secret sid token) w)) = [] /\
     (forall s metadata,
        ask E (GetSecretValue sid None "AWSPENDING") w = Ok (Some s) ->
        ask E (DescribeSecret sid) (next E (GetSecretValue sid None "AWSPENDING") w) = Ok metadata ->
        calls (run E (finish_secret sid token) w) =
          [GetSecretValue sid None "AWSPENDING"; DescribeSecret sid] /\
        is_ok (result (run E (finish_secret sid token) w)) = true)).
Proof.
  split.
  - intros w event metadata stages <- <- Hask Hget Hcur.
    rewrite lambda_handler_validation, Hask.
    destruct (RotationEnabled metadata); cbn [negb].
    + rewrite Hget, Hcur. repeat split.
    + repeat split.
  - intros w. apply finish_secret_settled.
Qed.

(** The finish step after the rotation is over, through the entry point and
    directly. *)
Lemma finish_idempotent_witness :
  (calls (run Fake.handle (lambda_handler (Fake.event_for "finishSecret" "new") tt) Fake.finished)
     = [DescribeSecret "secret"] /\
   List.filter is_stage_move
     (calls (run Fake.handle (lambda_handler (Fake.event_for "finishSecret" "new") tt) Fake.finished)) = [] /\
   is_ok (result (run Fake.handle (lambda_handler (Fake.event_for "finishSecret" "new") tt) Fake.finished))
     = true) /\
  (List.filter is_stage_move (calls (run Fake.handle (finish_secret "secret" "new") Fake.finished)) = [] /\
   calls (run Fake.handle (finish_secret "secret" "new") Fake.finished) =
     [GetSecretValue "secret" None "AWSPENDING"; DescribeSecret "secret"] /\
   is_ok (result (run Fake.handle (finish_secret "secret" "new") Fake.finished)) = true).
Proof.
  split.
  - apply (proj1 (finish_idempotent Fake.handle "secret" "new") Fake.finished
             (Fake.event_for "finishSecret" "new")
             {| RotationEnabled := true; VersionIdsToStages := Fake.versions Fake.finished |}
             ["AWSPENDING"; "AWSCURRENT"]); reflexivity.
  - assert (Hcur : forall metadata,
              ask Fake.handle (DescribeSecret "secret")
                (next Fake.handle (GetSecretValue "secret" None "AWSPENDING") Fake.finished) = Ok metadata ->
              current_only_on "new" metadata).
    { intros metadata [= <-]. split.
      - exists ["AWSPENDING"; "AWSCURRENT"]. split; reflexivity.
      - intros version stages [[= <- <-] | [[= <- <-] | []]]; [discriminate | reflexivity]. }
    destruct (proj2 (finish_idempotent Fake.handle "secret" "new") Fake.finished Hcur) as [Hmove Hret].
    split; [exact Hmove |].
    apply (Hret (Fake.payload "b" "c" "Ab1Bc2Cd3De4Ef59")
             {| RotationEnabled := true; VersionIdsToStages := Fake.versions Fake.finished |});
      reflexivity.
Defined.

(** C7 as stated fails.  The token carries AWSCURRENT and no version carries
    AWSPENDING: [finish_secret] raises at line 272, on the read of the
    pending payload.  The token carries AWSCURRENT and rotation is not
    enabled: the entry point raises at line 313. *)
Lemma finish_needs_pending_and_rotation :
  let direct := run Fake.handle (finish_secret "secret" "new") Fake.promoted in
  let entry := run Fake.handle (lambda_handler (Fake.event_for "finishSecret" "new") tt) Fake.retired in
  dict_get "new" (Fake.versions Fake.promoted) = Some ["AWSCURRENT"] /\
  calls direct = [GetSecretValue "secret" None "AWSPENDING"] /\
  result direct = Raised ResourceNotFoundException /\
  dict_get "new" (Fake.versions Fake.retired) = Some ["AWSPENDING"; "AWSCURRENT"] /\
  calls entry = [DescribeSecret "secret"] /\
  result entry = Raised (ValueError "Secret secret is not enabled for rotation").
Proof. repeat split; reflexivity. Qed.

(** C8 (amended).  An event whose token is not in the version map: the entry
    point makes the one [DescribeSecret] call, writes nothing and raises
    before any step handler runs; the error is the one of line 319 (unknown
    version) when rotation is enabled for the secret, the one of line 313
    (rotation not enabled) when it is not. *)
Theorem unknown_version_rejected {W} (E : env W) (w : W) (event : Event)
  (metadata : SecretMetadata) :
  ask E (DescribeSecret (SecretId event)) w = Ok metadata ->
  dict_get (token_of event) (VersionIdsToStages metadata) = None ->
  calls (run E (lambda_handler event tt) w) = [DescribeSecret (SecretId event)] /\
  List.filter is_write (calls (run E (lambda_handler event tt) w)) = [] /\
  result (run E (lambda_handler event tt) w) =
    Raised (ValueError (if RotationEnabled metadata
                        then no_stage_message (token_of event) (SecretId event)
                        else not_enabled_message (SecretId event))).
Proof.
  intros Hask Hget. rewrite lambda_handler_validation, Hask.
  destruct (RotationEnabled metadata); cbn [negb]; [rewrite Hget |]; repeat split.
Qed.

(** A token the secret does not know. *)
Lemma unknown_version_rejected_witness :
  calls (run Fake.handle (lambda_handler (Fake.event_for "createSecret" "ghost") tt) Fake.fresh)
    = [DescribeSecret "secret"] /\
  List.filter is_write
    (calls (run Fake.handle (lambda_handler (Fake.event_for "createSecret" "ghost") tt) Fake.fresh)) = [] /\
  result (run Fake.handle (lambda_handler (Fake.event_for "createSecret" "ghost") tt) Fake.fresh) =
    Raised (ValueError "Secret version ghost has no stage for rotation of secret secret.").
Proof.
  apply (unknown_version_rejected Fake.handle Fake.fresh (Fake.event_for "createSecret" "ghost")
           {| RotationEnabled := true; VersionIdsToStages := Fake.versions Fake.fresh |});
    reflexivity.
Defined.

(** C8 as stated fails: the token is not in the version map, rotation is not
    enabled, and the error is the one of line 313. *)
Lemma unknown_version_rotation_disabled :
  let r := run Fake.handle (lambda_handler (Fake.event_for "createSecret" "ghost") tt) Fake.disabled in
  dict_get "ghost" (Fake.versions Fake.disabled) = None /\
  result r = Raised (ValueError "Secret secret is not enabled for rotation") /\
  result r <> Raised (ValueError (no_stage_message "ghost" "secret")).
Proof. repeat split; try reflexivity. discriminate. Qed.

(** C9.  An event that passes the validation of the staging labels and whose
    step, in lower case, is none of the four step names in lower case: the
    entry point makes the one [DescribeSecret] call, so runs no step handler
    ([handlers_read_first]), and returns. *)
Theorem unknown_step_is_noop {W} (E : env W) (w : W) (event : Event)
  (metadata : SecretMetadata) (stages : list string) :
  ask E (DescribeSecret (SecretId event)) w = Ok metadata ->
  RotationEnabled metadata = true ->
  dict_get (token_of event) (VersionIdsToStages metadata) = Some stages ->
  list_mem "AWSCURRENT" stages = true \/ list_mem "AWSPENDING" stages = true ->
  ~ In (lower (Step event))
       (List.map lower ["createSecret"; "setSecret"; "testSecret"; "finishSecret"]) ->
  calls (run E (lambda_handler event tt) w) = [DescribeSecret (SecretId event)] /\
  result (run E (lambda_handler event tt) w) =
    Ok (if list_mem "AWSCURRENT" stages then None else Some done_response).
Proof.
  intros Hask Hrot Hget Hstage Hstep.
  rewrite lambda_handler_validation, Hask, Hrot, Hget. cbn [negb].
  destruct (list_mem "AWSCURRENT" stages); [split; reflexivity |].
  destruct Hstage as [Hcur | Hpend]; [discriminate |]. rewrite Hpend. cbn [negb].
  assert (Hne : forall name, In name ["createsecret"; "setsecret"; "testsecret"; "finishsecret"] ->
                             String.eqb (lower (Step event)) name = false).
  { intros name Hin. apply String.eqb_neq. intros Heq. apply Hstep. rewrite Heq. exact Hin. }
  rewrite !Hne by (simpl; auto 10). split; reflexivity.
Qed.

(** A step that is none of the four. *)
Lemma unknown_step_is_noop_witness :
  calls (run Fake.handle (lambda_handler (Fake.event_for "rotateSecret" "new") tt) Fake.fresh)
    = [DescribeSecret "secret"] /\
  result (run Fake.handle (lambda_handler (Fake.event_for "rotateSecret" "new") tt) Fake.fresh)
    = Ok (Some done_response).
Proof.
  apply (unknown_step_is_noop Fake.handle Fake.fresh (Fake.event_for "rotateSecret" "new")
           {| RotationEnabled := true; VersionIdsToStages := Fake.versions Fake.fresh |}
           ["AWSPENDING"]).
  - reflexivity.
  - reflexivity.
  - reflexivity.
  - right. reflexivity.
  - vm_compute. intros [H | [H | [H | [H | []]]]]; discriminate H.
Defined.

(** C10.  The create step and the set step agree on the stored text.  With
    [b] and [c] over the key alphabet, the text the create step stores,
    once the set step has replaced its apostrophes and stripped its
    backslashes, decodes to key1 = [b], key2 = [c], key3 = [k], the key just
    generated; and a set step that reads this text goes on exactly as
    [set_api_key_in_alb] on [k]. *)
Theorem create_set_round_trip {W} (E : env W) (w : W) (sid token s : string)
  (old : json) (b c : string) :
  ask E (GetSecretValue sid None "AWSCURRENT") w = Ok (Some s) ->
  loads s = Ok old ->
  subscript old "key2" = Ok (JStr b) ->
  subscript old "key3" = Ok (JStr c) ->
  ask E (GetSecretValue sid (Some token) "AWSPENDING")
    (next E (GetSecretValue sid None "AWSCURRENT") w) = Raised ResourceNotFoundException ->
  all_chars in_alphabet b = true ->
  all_chars in_alphabet c = true ->
  exists k stored,
    is_key k /\
    In (PutSecretValue sid token stored ["AWSPENDING"]) (calls (run E (create_secret sid token) w)) /\
    loads (replace backslash "" (replace apostrophe (String dquote "") stored))
      = Ok (payload_of b c k) /\
    forall w',
      ask E (GetSecretValue sid None "AWSPENDING") w' = Ok (Some stored) ->
      run E (set_secret sid token) w' =
      after (Ev (GetSecretValue sid None "AWSPENDING") (SecretValue (Ok (Some stored))))
            (run E (set_api_key_in_alb (JStr k)) (next E (GetSecretValue sid None "AWSPENDING") w')).
Proof.
  intros Hcur Hloads Hk2 Hk3 Hpend Hb Hc.
  destruct (create_secret_fresh E sid token s old (JStr b) (JStr c) w Hcur Hloads Hk2 Hk3 Hpend)
    as (k & Hk & Hkey & Hcalls).
  pose proof (key_plain b Hb) as Hbp. pose proof (key_plain c Hc) as Hcp.
  pose proof (key_plain k (proj2 Hkey)) as Hkp.
  exists k, (payload_text b c k). split; [exact Hkey |]. split; [| split].
  - rewrite Hcalls. fold (payload_of b c k).
    rewrite stored_text by (apply plain_all_unescaped; assumption).
    apply in_or_app. right. apply in_or_app. right. left. reflexivity.
  - rewrite set_text by assumption.
    apply loads_payload_text; apply plain_all_unescaped; assumption.
  - intros w' Hask. apply set_secret_pushes; assumption.
Qed.

(** The create step, then the set step, on a payload of generated keys. *)
Lemma create_set_round_trip_witness :
  exists k stored,
    is_key k /\
    In (PutSecretValue "secret" "new" stored ["AWSPENDING"])
       (calls (run Fake.handle (create_secret "secret" "new") Fake.fresh)) /\
    loads (replace backslash "" (replace apostrophe (String dquote "") stored))
      = Ok (payload_of "k0000000000000b" "k0000000000000c" k) /\
    forall w',
      ask Fake.handle (GetSecretValue "secret" None "AWSPENDING") w' = Ok (Some stored) ->
      run Fake.handle (set_secret "secret" "new") w' =
      after (Ev (GetSecretValue "secret" None "AWSPENDING") (SecretValue (Ok (Some stored))))
            (run Fake.handle (set_api_key_in_alb (JStr k))
               (next Fake.handle (GetSecretValue "secret" None "AWSPENDING") w')).
Proof.
  apply (create_set_round_trip Fake.handle Fake.fresh "secret" "new"
           (Fake.payload "k0000000000000a" "k0000000000000b" "k0000000000000c")
           (payload_of "k0000000000000a" "k0000000000000b" "k0000000000000c"));
    reflexivity.
Defined.

(** * More lemmas *)

Module MoreLemmas.
Import PyStr Json Effects Rotator Observe Further TextLemmas RunLemmas SyncLemmas StepLemmas.

(** ** The calls of a run all belong to a class *)

Section Only.
Context {W : Type} (E : env W) (P : call -> Prop).

Lemma only_seq {A B} (r : run_result W A) (next : A -> W -> run_result W B) :
  Forall P (calls r) -> (forall a w, Forall P (calls (next a w))) ->
  Forall P (calls (seq_result r next)).
Proof.
  intros Hr Hnext. unfold seq_result. destruct (result r) as [a | e].
  - unfold calls in *. cbn [trace]. rewrite List.map_app. apply Forall_app. split; [exact Hr | apply Hnext].
  - exact Hr.
Qed.

Lemma only_bind {A B} (m : prog A) (f : A -> prog B) w :
  Forall P (calls (run E m w)) -> (forall a w', Forall P (calls (run E (f a) w'))) ->
  Forall P (calls (run E (bind m f) w)).
Proof. intros Hm Hf. rewrite run_bind. apply only_seq; assumption. Qed.

Lemma only_ret {A} (a : A) w : Forall P (calls (run E (Ret a) w)).
Proof. constructor. Qed.

Lemma only_raise {A} e w : Forall P (calls (run E (@Raise A e) w)).
Proof. constructor. Qed.

Lemma only_lift {A} (o : outcome A) w : Forall P (calls (run E (lift o) w)).
Proof. rewrite run_lift. constructor. Qed.

Lemma only_vis {A} c (k : reply c -> prog A) w :
  P c -> (forall x w', Forall P (calls (run E (k x) w'))) ->
  Forall P (calls (run E (Vis c k) w)).
Proof. intros Hc Hk. rewrite run_vis, calls_after. constructor; [exact Hc | apply Hk]. Qed.

Lemma only_attempt {A} (m : prog A) w :
  Forall P (calls (run E m w)) -> Forall P (calls (run E (attempt m) w)).
Proof. rewrite run_attempt. intros H. exact H. Qed.

Lemma only_for_each {X} (body : X -> prog unit) (l : list X) :
  (forall x w, Forall P (calls (run E (body x) w))) ->
  forall w, Forall P (calls (run E (for_each l body) w)).
Proof.
  intros Hbody. induction l as [| x l IH]; intros w; simpl.
  - constructor.
  - apply only_bind; [apply Hbody | intros _ w'; apply IH].
Qed.

End Only.

Section Classes.
Context {W : Type} (E : env W).

Lemma key_generator_draws n w : Forall (fun c => is_draw c = true) (calls (run E (key_generator n) w)).
Proof.
  destruct (key_generator_run E n w) as (k & _ & _ & _ & ->).
  induction n; simpl; constructor; [reflexivity | assumption].
Qed.

Lemma create_secret_calls sid token w :
  Forall (create_call sid token) (calls (run E (create_secret sid token) w)).
Proof.
  unfold create_secret, get_secret, get_secret_value, put_secret_value.
  apply only_bind; [| intros old_secret_value w1].
  { apply only_bind; [apply only_vis; [reflexivity | intros; apply only_lift] |].
    intros [s |] w'; [apply only_ret | apply only_raise]. }
  apply only_bind; [apply only_lift | intros old w2].
  apply only_bind; [apply only_attempt, only_vis; [reflexivity | intros; apply only_lift] |].
  intros [v | e] w3; [apply only_ret |].
  destruct e; try apply only_raise.
  apply only_bind; [apply only_lift | intros old' w4].
  apply only_bind; [apply only_lift | intros key1 w5].
  apply only_bind; [apply only_lift | intros key2 w6].
  apply only_bind; [| intros key3 w7].
  { eapply Forall_impl; [apply key_generator_draws |].
    intros c Hc. destruct c; try discriminate Hc. exact I. }
  apply only_bind; [| intros; apply only_ret].
  apply only_vis; [repeat split | intros; apply only_lift].
Qed.

Lemma update_rule_calls key rule w : Forall sync_call (calls (run E (update_rule key rule) w)).
Proof.
  unfold update_rule, modify_rule. destruct (IsDefault rule); [apply only_ret |].
  apply only_bind; [apply only_lift | intros nc w'].
  apply only_vis; [exact I | intros; apply only_lift].
Qed.

Lemma update_listener_calls key listener w :
  Forall sync_call (calls (run E (update_listener key listener) w)).
Proof.
  unfold update_listener, describe_rules.
  apply only_bind; [apply only_vis; [exact I | intros; apply only_lift] | intros rules w'].
  apply only_for_each. intros. apply update_rule_calls.
Qed.

Lemma update_alb_calls key alb w : Forall sync_call (calls (run E (update_alb key alb) w)).
Proof.
  unfold update_alb, environ_get, describe_listeners.
  apply only_bind; [apply only_vis; [exact I | intros; apply only_ret] | intros f w'].
  cbv zeta. match goal with |- context [if ?b then _ else _] => destruct b end;
    [| apply only_ret].
  apply only_bind; [apply only_vis; [exact I | intros; apply only_lift] | intros ls w''].
  apply only_for_each. intros. apply update_listener_calls.
Qed.

Lemma set_api_key_in_alb_calls key w :
  Forall sync_call (calls (run E (set_api_key_in_alb key) w)).
Proof.
  unfold set_api_key_in_alb, describe_load_balancers.
  assert (Hgo : Forall sync_call
            (calls (run E (let! response := Vis DescribeLoadBalancers lift in
                    match response with
                    | Some albs => for_each albs (update_alb key)
                    | None => Ret tt
                    end ;;; Ret 0%Z) w))).
  { apply only_bind; [apply only_vis; [exact I | intros; apply only_lift] | intros resp w'].
    apply only_bind; [| intros; apply only_ret].
    destruct resp as [albs |]; [| apply only_ret].
    apply only_for_each. intros. apply update_alb_calls. }
  destruct key; try exact Hgo. apply only_ret.
Qed.

End Classes.

(** ** The classes of the calls of the test, finish and set steps *)

Section MoreSteps.
Context {W : Type} (E : env W).

Lemma test_secret_calls sid token w :
  Forall (staged_read sid) (calls (run E (test_secret sid token) w)).
Proof.
  unfold test_secret, get_secret, get_secret_value.
  apply only_bind; [| intros cur w1].
  { apply only_bind; [apply only_vis; [reflexivity | intros; apply only_lift] |].
    intros [s |] w'; [apply only_ret | apply only_raise]. }
  apply only_bind; [| intros; apply only_ret].
  apply only_bind; [apply only_vis; [reflexivity | intros; apply only_lift] |].
  intros [s |] w'; [apply only_ret | apply only_raise].
Qed.

Lemma finish_secret_calls sid token w :
  Forall (finish_call sid token) (calls (run E (finish_secret sid token) w)).
Proof.
  unfold finish_secret, get_secret, get_secret_value, describe_secret, update_secret_version_stage.
  apply only_bind; [| intros sv w1].
  { apply only_bind; [apply only_vis; [split; reflexivity | intros; apply only_lift] |].
    intros [s |] w'; [apply only_ret | apply only_raise]. }
  apply only_bind; [apply only_vis; [reflexivity | intros; apply only_lift] | intros md w2].
  apply only_bind; [apply only_lift | intros scan w3].
  destruct scan; [apply only_ret |].
  apply only_bind; [| intros; apply only_ret].
  apply only_vis; [repeat split | intros; apply only_lift].
Qed.

Lemma set_secret_calls sid token w :
  exists rest,
    calls (run E (set_secret sid token) w) = GetSecretValue sid None "AWSPENDING" :: rest /\
    Forall sync_call rest.
Proof.
  unfold set_secret. rewrite run_bind, run_get_secret. unfold seq_result. cbn [result trace final].
  destruct (ask E (GetSecretValue sid None "AWSPENDING") w) as [[s |] | e];
    cbn [result trace final];
    try (exists []; split; [reflexivity | constructor]).
  eexists. unfold calls at 1. cbn [trace List.map app ev_call]. split; [reflexivity |].
  match goal with |- Forall _ (List.map ev_call (trace ?r)) => change (Forall sync_call (calls r)) end.
  apply only_bind; [apply only_lift | intros v w1].
  apply only_bind; [apply only_lift | intros key w2].
  apply only_bind; [apply set_api_key_in_alb_calls | intros; apply only_ret].
Qed.

End MoreSteps.

(** ** The scan of the finish step, and the hand-over of the entry point *)

Lemma dict_get_unique {V} k (v : V) (d : list (string * V)) :
  NoDup (List.map fst d) -> In (k, v) d -> dict_get k d = Some v.
Proof.
  induction d as [| [k' v'] d IH]; simpl; [intros _ [] |].
  intros Hnd Hin. apply NoDup_cons in Hnd as [Hfresh Hnd].
  destruct Hin as [[= -> ->] | Hin].
  - rewrite String.eqb_refl. reflexivity.
  - destruct (String.eqb k k') eqn:Hk; [| apply IH; assumption].
    apply String.eqb_eq in Hk. subst k'. exfalso. apply Hfresh.
    apply list_elem_of_In. apply (List.in_map fst) in Hin. exact Hin.
Qed.

Lemma scan_versions_first token d : forall suffix,
  NoDup (List.map fst d) -> (forall p, In p suffix -> In p d) ->
  scan_versions token d (List.map fst suffix) =
  Ok match List.find (holds "AWSCURRENT") suffix with
     | Some (version, _) =>
         if String.eqb version token then AlreadyCurrent else CurrentVersion (Some version)
     | None => CurrentVersion None
     end.
Proof.
  intros suffix Hnd. induction suffix as [| [version stages] suffix IH]; intros Hincl; simpl.
  - reflexivity.
  - rewrite (dict_get_unique version stages d Hnd (Hincl _ (or_introl eq_refl))).
    unfold holds at 1. simpl.
    destruct (list_mem "AWSCURRENT" stages); [destruct (String.eqb version token); reflexivity |].
    apply IH. intros p Hp. apply Hincl. right. exact Hp.
Qed.

Section Entry.
Context {W : Type} (E : env W).

(** The run of a handler under the entry point: its calls, and the response
    when it returns. *)
Lemma run_dispatched {A} (handler : prog A) w :
  calls (run E ((handler ;;; Ret tt) ;;; Ret (Some done_response)) w) = calls (run E handler w) /\
  result (run E ((handler ;;; Ret tt) ;;; Ret (Some done_response)) w) =
    match result (run E handler w) with
    | Ok _ => Ok (Some done_response)
    | Raised e => Raised e
    end.
Proof.
  rewrite !run_bind. unfold seq_result, calls.
  destruct (result (run E handler w)); cbn [result trace final run]; rewrite ?app_nil_r;
    split; reflexivity.
Qed.

Lemma lambda_handler_dispatched event metadata stages w :
  ask E (DescribeSecret (SecretId event)) w = Ok metadata ->
  RotationEnabled metadata = true ->
  dict_get (token_of event) (VersionIdsToStages metadata) = Some stages ->
  list_mem "AWSCURRENT" stages = false ->
  list_mem "AWSPENDING" stages = true ->
  run E (lambda_handler event tt) w =
  after (Ev (DescribeSecret (SecretId event)) (Metadata (Ok metadata)))
    (run E
       ((if String.eqb (lower (Step event)) "createsecret" then
           create_secret (SecretId event) (token_of event) ;;; Ret tt
         else if String.eqb (lower (Step event)) "setsecret" then
           set_secret (SecretId event) (token_of event) ;;; Ret tt
         else if String.eqb (lower (Step event)) "testsecret" then
           test_secret (SecretId event) (token_of event) ;;; Ret tt
         else if String.eqb (lower (Step event)) "finishsecret" then
           finish_secret (SecretId event) (token_of event) ;;; Ret tt
         else Ret tt) ;;;
        Ret (Some done_response))
       (next E (DescribeSecret (SecretId event)) w)).
Proof.
  intros Hask Hrot Hget Hcur Hpend.
  rewrite lambda_handler_validation, Hask, Hrot, Hget, Hcur, Hpend. reflexivity.
Qed.

End Entry.

(** ** What the classes of calls write *)

Lemma create_call_writes sid token c :
  create_call sid token c -> is_modify c = false /\ is_stage_move c = false.
Proof. destruct c; simpl; intros H; try contradiction; split; reflexivity. Qed.

Lemma finish_call_writes sid token c :
  finish_call sid token c -> is_put c = false /\ is_modify c = false.
Proof. destruct c; simpl; intros H; try contradiction; split; reflexivity. Qed.

Lemma staged_read_writes sid c : staged_read sid c -> is_write c = false.
Proof. destruct c; simpl; intros H; try contradiction; reflexivity. Qed.

Lemma sync_call_writes c : sync_call c -> is_put c = false /\ is_stage_move c = false.
Proof. destruct c; simpl; intros H; try contradiction; split; reflexivity. Qed.

(** ** The payload written with apostrophes *)

Lemma replace_quoted' s rest :
  all_chars plain s = true ->
  replace apostrophe (String dquote "") (quoted_then' s rest) =
  quoted_then s (replace apostrophe (String dquote "") rest).
Proof.
  intros Hs. unfold quoted_then', quoted_then.
  change (replace apostrophe (String dquote "") (String apostrophe ?x))
    with (String dquote "" +:+ replace apostrophe (String dquote "") x).
  rewrite replace_app, app_cons, app_empty.
  rewrite (replace_absent apostrophe) by (eapply all_chars_impl; [exact plain_no_apostrophe | exact Hs]).
  reflexivity.
Qed.

Lemma replace_repr a b c :
  all_chars plain a = true -> all_chars plain b = true -> all_chars plain c = true ->
  replace apostrophe (String dquote "") (payload_repr a b c) = payload_text a b c.
Proof.
  intros Ha Hb Hc. unfold payload_repr, payload_text.
  change (replace apostrophe (String dquote "") (String "{" ?x))
    with (String "{" (replace apostrophe (String dquote "") x)).
  repeat (rewrite replace_quoted' by (assumption || reflexivity);
          rewrite ?app_cons, ?app_empty;
          repeat match goal with
            | |- context [replace apostrophe ?n (String ?ch ?x)] =>
                change (replace apostrophe n (String ch x)) with (String ch (replace apostrophe n x))
            end).
  reflexivity.
Qed.

Lemma contains_empty s : contains "" s = true.
Proof. destruct s; reflexivity. Qed.

(** ** The loop, condition by condition *)

Lemma set_values_rewrite_one key done c rest :
  is_api_key_condition c = Ok true ->
  set_values key (length done) (done ++ c :: rest) =
  match rewrite_one key c with
  | Ok c' => Ok (done ++ c' :: rest)
  | Raised e => Raised e
  end.
Proof.
  intros Hc. unfold set_values, rewrite_one. rewrite Hc.
  rewrite list_lookup_middle by reflexivity.
  destruct (HttpHeaderConfig c) as [config |]; [| reflexivity].
  destruct (Values config); [| reflexivity].
  replace (length done) with (length done + 0) by lia.
  rewrite insert_app_r. reflexivity.
Qed.

Lemma conditions_loop_pointwise key todo : forall done,
  conditions_loop key (length todo) (length done) (done ++ todo) =
  match rewrite_all key todo with
  | Ok todo' => Ok (done ++ todo')
  | Raised e => Raised e
  end.
Proof.
  induction todo as [| c rest IH]; intros done; simpl.
  - reflexivity.
  - rewrite list_lookup_middle by reflexivity.
    assert (Hshift : forall c', S (length done) = length (done ++ [c']) /\
                                done ++ c' :: rest = (done ++ [c']) ++ rest).
    { intros c'. rewrite length_app, <- app_assoc. simpl. split; [lia | reflexivity]. }
    destruct (is_api_key_condition c) as [[] |] eqn:Hc.
    + rewrite (set_values_rewrite_one key done c rest Hc).
      destruct (rewrite_one key c) as [c' | e]; [| reflexivity].
      destruct (Hshift c') as [-> ->]. rewrite IH.
      destruct (rewrite_all key rest); [rewrite <- app_assoc |]; reflexivity.
    + unfold rewrite_one. rewrite Hc.
      destruct (Hshift c) as [-> ->]. rewrite IH.
      destruct (rewrite_all key rest); [rewrite <- app_assoc |]; reflexivity.
    + unfold rewrite_one. rewrite Hc. reflexivity.
Qed.

Lemma update_conditions_pointwise key conditions :
  update_conditions key conditions = rewrite_all key conditions.
Proof.
  unfold update_conditions.
  pose proof (conditions_loop_pointwise key conditions []) as H. simpl in H. rewrite H.
  destruct (rewrite_all key conditions); reflexivity.
Qed.

Lemma rewrite_one_ok key c : is_ok (rewrite_one key c) = well_formed c.
Proof.
  unfold rewrite_one, well_formed, is_api_key_condition, is_http_header, has_config, has_values,
    matches_sentinel.
  destruct (Field c) as [field |]; [| reflexivity].
  destruct (String.eqb field "http-header"); [| destruct (HttpHeaderConfig c); reflexivity].
  destruct (HttpHeaderConfig c) as [config |]; [| reflexivity].
  destruct (HttpHeaderName config) as [name |]; [| reflexivity].
  destruct (String.eqb name "X-AWS-API-KEY"); [| reflexivity].
  destruct (Values config); reflexivity.
Qed.

Lemma rewrite_one_raises key c e : rewrite_one key c = Raised e -> exists name, e = KeyError name.
Proof.
  unfold rewrite_one, is_api_key_condition.
  destruct (Field c) as [field |]; [| discriminate].
  destruct (String.eqb field "http-header"); [| discriminate].
  destruct (HttpHeaderConfig c) as [config |]; [| intros [= <-]; eauto].
  destruct (match HttpHeaderName config with Some name => String.eqb name "X-AWS-API-KEY" | None => false end);
    [| discriminate].
  destruct (Values config); [discriminate | intros [= <-]; eauto].
Qed.

Lemma rewrite_all_raises key conditions e :
  rewrite_all key conditions = Raised e -> exists name, e = KeyError name.
Proof.
  induction conditions as [| c rest IH]; simpl; [discriminate |].
  destruct (rewrite_one key c) as [c' | e1] eqn:Hc.
  - destruct (rewrite_all key rest) as [rest' | e2]; [discriminate |].
    intros [= <-]. apply IH. reflexivity.
  - intros [= <-]. eapply rewrite_one_raises, Hc.
Qed.

Lemma rewrite_one_again k1 k2 c c1 :
  rewrite_one k1 c = Ok c1 -> rewrite_one k2 c1 = rewrite_one k2 c.
Proof.
  unfold rewrite_one.
  destruct (is_api_key_condition c) as [[] |] eqn:Hc; [| intros [= <-]; rewrite Hc; reflexivity | discriminate].
  destruct (HttpHeaderConfig c) as [config |] eqn:Hconfig; [| discriminate].
  destruct (Values config) eqn:Hvalues; [| discriminate].
  intros [= <-].
  assert (Hc1 : is_api_key_condition
                  {| Field := Field c;
                     HttpHeaderConfig :=
                       Some {| HttpHeaderName := HttpHeaderName config; Values := Some [k1] |};
                     OtherMembers := OtherMembers c |} = Ok true).
  { revert Hc. unfold is_api_key_condition. cbn [Field HttpHeaderConfig HttpHeaderName].
    rewrite Hconfig. trivial. }
  rewrite Hc1. reflexivity.
Qed.

(** ** Fail fast *)

Section FailFast.
Context {W : Type} (E : env W).

Lemma fails_fast_silent {A} (o : outcome A) (w : W) :
  fails_fast {| trace := []; result := o; final := w |}.
Proof. left. reflexivity. Qed.

Lemma fails_fast_seq {A B} (r : run_result W A) (next : A -> W -> run_result W B) :
  fails_fast r -> (forall a w, fails_fast (next a w)) -> fails_fast (seq_result r next).
Proof.
  intros Hr Hnext. unfold seq_result. destruct (result r) as [a | e0] eqn:Hres.
  - destruct Hr as [Hclean | (t & ev & e & _ & _ & _ & Hraised)]; [| congruence].
    destruct (Hnext a (final r)) as [Hclean2 | (t & ev & e & Htrace & Ht & Hev & Hraised)].
    + left. cbn [trace]. rewrite List.forallb_app, Hclean, Hclean2. reflexivity.
    + right. exists (trace r ++ t), ev, e. cbn [trace result].
      rewrite Htrace, List.forallb_app, Hclean, Ht, <- app_assoc.
      repeat split; try assumption; reflexivity.
  - destruct Hr as [Hclean | (t & ev & e & Htrace & Ht & Hev & Hraised)].
    + left. exact Hclean.
    + right. exists t, ev, e. cbn [trace result].
      repeat split; try assumption. congruence.
Qed.

Lemma fails_fast_bind {A B} (m : prog A) (f : A -> prog B) w :
  fails_fast (run E m w) -> (forall a w', fails_fast (run E (f a) w')) ->
  fails_fast (run E (bind m f) w).
Proof. intros Hm Hf. rewrite run_bind. apply fails_fast_seq; assumption. Qed.

Lemma fails_fast_ret {A} (a : A) w : fails_fast (run E (Ret a) w).
Proof. apply fails_fast_silent. Qed.

Lemma fails_fast_lift {A} (o : outcome A) w : fails_fast (run E (lift o) w).
Proof. rewrite run_lift. apply fails_fast_silent. Qed.

Lemma fails_fast_for_each {X} (body : X -> prog unit) (l : list X) :
  (forall x w, fails_fast (run E (body x) w)) ->
  forall w, fails_fast (run E (for_each l body) w).
Proof.
  intros Hbody. induction l as [| x l IH]; intros w; simpl.
  - apply fails_fast_ret.
  - apply fails_fast_bind; [apply Hbody | intros _ w'; apply IH].
Qed.

(** A call to the service, alone. *)
Lemma fails_fast_call {A} (c : call) (o : outcome A) (wrap : outcome A -> answer) (w : W) :
  (forall e, raised_answer (Ev c (wrap (Raised e))) = Some e) ->
  (forall a, raised_answer (Ev c (wrap (Ok a))) = None) ->
  fails_fast {| trace := [Ev c (wrap o)]; result := o; final := w |}.
Proof.
  intros Hraised Hok. destruct o as [a | e].
  - left. cbn [trace forallb]. unfold answered. rewrite Hok. reflexivity.
  - right. exists [], (Ev c (wrap (Raised e))), e. repeat split. apply Hraised.
Qed.

Lemma fails_fast_update_rule key rule w : fails_fast (run E (update_rule key rule) w).
Proof.
  rewrite run_update_rule. destruct (IsDefault rule); [apply fails_fast_silent |].
  destruct (update_conditions key (Conditions rule)); [| apply fails_fast_silent].
  apply (fails_fast_call _ _ Done); reflexivity.
Qed.

Lemma fails_fast_update_listener key listener w :
  fails_fast (run E (update_listener key listener) w).
Proof.
  unfold update_listener, describe_rules. apply fails_fast_bind.
  - rewrite run_vis, run_lift. apply (fails_fast_call _ _ Rules); reflexivity.
  - intros rules w'. apply fails_fast_for_each. apply fails_fast_update_rule.
Qed.

Lemma fails_fast_update_alb key alb w : fails_fast (run E (update_alb key alb) w).
Proof.
  unfold update_alb, environ_get, describe_listeners. apply fails_fast_bind.
  - rewrite run_vis. left. reflexivity.
  - intros f w'. cbv zeta.
    match goal with |- context [if ?b then _ else _] => destruct b end; [| apply fails_fast_ret].
    apply fails_fast_bind.
    + rewrite run_vis, run_lift. apply (fails_fast_call _ _ Listeners); reflexivity.
    + intros ls w''. apply fails_fast_for_each. apply fails_fast_update_listener.
Qed.

Lemma fails_fast_set_api_key_in_alb key w : fails_fast (run E (set_api_key_in_alb key) w).
Proof.
  unfold set_api_key_in_alb, describe_load_balancers.
  assert (Hgo : fails_fast
            (run E (let! response := Vis DescribeLoadBalancers lift in
                    match response with
                    | Some albs => for_each albs (update_alb key)
                    | None => Ret tt
                    end ;;; Ret 0%Z) w)).
  { apply fails_fast_bind.
    - rewrite run_vis, run_lift. apply (fails_fast_call _ _ LoadBalancers); reflexivity.
    - intros resp w'. apply fails_fast_bind; [| intros; apply fails_fast_ret].
      destruct resp as [albs |]; [| apply fails_fast_ret].
      apply fails_fast_for_each. apply fails_fast_update_alb. }
  destruct key; try exact Hgo. apply fails_fast_ret.
Qed.

End FailFast.

Lemma raised_not_answered ev e : raised_answer ev = Some e -> answered ev = false.
Proof. unfold answered. intros ->. reflexivity. Qed.

End MoreLemmas.

(** * Further properties *)

Import Further MoreLemmas.

(** X1.  The key generator, for any size: it returns a string of that length over
    the alphabet, after that many draws below 62 and nothing else. *)
Theorem key_generator_any_size {W} (E : env W) (size : nat) (w : W) :
  exists k,
    result (run E (key_generator size) w) = Ok k /\
    String.length k = size /\
    all_chars in_alphabet k = true /\
    calls (run E (key_generator size) w) = repeat (RandBelow 62) size.
Proof. apply key_generator_run. Qed.

(** X2.  The test step only reads: at most two calls, each a read of the secret by
    label and without a version id, and it returns 0 exactly when the
    current and the pending version are both answered with a string. *)
Theorem test_secret_reads_only {W} (E : env W) (sid token : string) (w : W) :
  let r := run E (test_secret sid token) w in
  Forall (staged_read sid) (calls r) /\
  length (calls r) <= 2 /\
  (result r = Ok 0%Z <->
   exists current pending,
     ask E (GetSecretValue sid None "AWSCURRENT") w = Ok (Some current) /\
     ask E (GetSecretValue sid None "AWSPENDING")
       (next E (GetSecretValue sid None "AWSCURRENT") w) = Ok (Some pending)).
Proof.
  intros r. split; [apply test_secret_calls |]. subst r.
  unfold test_secret. run_step.
  destruct (ask E (GetSecretValue sid None "AWSCURRENT") w) as [[s1 |] | e1];
    cbn [result trace final];
    try (split; [simpl; lia | split; [discriminate | intros (? & ? & [=] & _)]]).
  run_step.
  destruct (ask E (GetSecretValue sid None "AWSPENDING") _) as [[s2 |] | e2];
    cbn [result trace final run];
    (split; [simpl; lia | split; [ | ]]);
    try discriminate; try (intros (? & ? & _ & [=])).
  - intros _. eauto.
  - reflexivity.
Qed.

(** X3.  The set step reads the pending payload and then only talks to the load
    balancers and reads the environment. *)
Theorem set_secret_store_untouched {W} (E : env W) (sid token : string) (w : W) :
  exists rest,
    calls (run E (set_secret sid token) w) = GetSecretValue sid None "AWSPENDING" :: rest /\
    Forall sync_call rest.
Proof. apply set_secret_calls. Qed.

(** X4.  The calls of the create step: reads of the secret, draws, and puts under
    the token with the one label AWSPENDING. *)
Theorem create_secret_writes_only_pending {W} (E : env W) (sid token : string) (w : W) :
  Forall (create_call sid token) (calls (run E (create_secret sid token) w)).
Proof. apply create_secret_calls. Qed.

(** X5.  A put of the create step: the current payload was read, the lookup
    of the pending version raised ResourceNotFoundException, and the put is
    under the token with the one label AWSPENDING.  When the payload read
    is a text the decoder reads as [json.loads] does, it decoded and holds
    key2 and key3, and the text put is the chained payload. *)
Theorem create_secret_puts_only_when_absent {W} (E : env W) (sid token : string) (w : W)
  (c : call) :
  In c (calls (run E (create_secret sid token) w)) -> is_put c = true ->
  ask E (GetSecretValue sid (Some token) "AWSPENDING")
    (next E (GetSecretValue sid None "AWSCURRENT") w) = Raised ResourceNotFoundException /\
  exists s text,
    ask E (GetSecretValue sid None "AWSCURRENT") w = Ok (Some s) /\
    c = PutSecretValue sid token text ["AWSPENDING"] /\
    (modelled s ->
     exists old v2 v3 k,
       loads s = Ok old /\
       subscript old "key2" = Ok v2 /\
       subscript old "key3" = Ok v3 /\
       is_key k /\
       text = replace backslash "" (dumps (JObj [("key1", v2); ("key2", v3); ("key3", JStr k)]))).
Proof.
  intros Hin Hput.
  destruct (ask E (GetSecretValue sid None "AWSCURRENT") w) as [[s |] | e] eqn:Hcur.
  2,3: exfalso; revert Hin; unfold create_secret; run_step; rewrite Hcur; cbn [result trace final];
       intros [<- | []]; discriminate Hput.
  destruct (loads s) as [old | e] eqn:Hloads.
  2: exfalso; revert Hin; unfold create_secret; run_step; rewrite Hcur; run_step; rewrite Hloads;
     cbn [result trace final]; unfold calls; cbn [trace List.map app ev_call];
     intros [<- | []]; discriminate Hput.
  destruct (ask E (GetSecretValue sid (Some token) "AWSPENDING")
              (next E (GetSecretValue sid None "AWSCURRENT") w)) as [v | e] eqn:Hpend.
  { exfalso; revert Hin; unfold create_secret; run_step; rewrite Hcur; run_step; rewrite Hloads;
    run_step; rewrite Hpend; cbn [result trace final run]; unfold calls; cbn [trace List.map app ev_call].
    intros [<- | [<- | []]]; discriminate Hput. }
  assert (He : e = ResourceNotFoundException).
  { destruct e; try reflexivity; exfalso; revert Hin; unfold create_secret; run_step; rewrite Hcur;
      run_step; rewrite Hloads; run_step; rewrite Hpend; cbn [result trace final run];
      unfold calls; cbn [trace List.map app ev_call];
      intros [<- | [<- | []]]; discriminate Hput. }
  subst e. split; [reflexivity |].
  destruct (subscript old "key2") as [v2 | e2] eqn:Hk2.
  2: exfalso; revert Hin; unfold create_secret; run_step; rewrite Hcur; run_step; rewrite Hloads;
     run_step; rewrite Hpend; run_step; rewrite Hk2; cbn [result trace final run];
     unfold calls; cbn [trace List.map app ev_call];
     intros [<- | [<- | []]]; discriminate Hput.
  destruct (subscript old "key3") as [v3 | e3] eqn:Hk3.
  2: exfalso; revert Hin; unfold create_secret; run_step; rewrite Hcur; run_step; rewrite Hloads;
     run_step; rewrite Hpend; run_step; rewrite Hk2; run_step; rewrite Hk3; cbn [result trace final run];
     unfold calls; cbn [trace List.map app ev_call];
     intros [<- | [<- | []]]; discriminate Hput.
  destruct (create_secret_fresh E sid token s old v2 v3 w Hcur Hloads Hk2 Hk3 Hpend)
    as (k & _ & Hkey & Hcalls).
  exists s, (replace backslash "" (dumps (JObj [("key1", v2); ("key2", v3); ("key3", JStr k)]))).
  split; [reflexivity |]. split.
  - rewrite Hcalls in Hin. cbn [app] in Hin.
    destruct Hin as [<- | [<- | Hin]]; try discriminate Hput.
    apply in_app_or in Hin as [Hin | [<- | []]]; [| reflexivity].
    apply repeat_spec in Hin. subst c. discriminate Hput.
  - intros _. exists old, v2, v3, k. repeat split; try assumption; apply Hkey.
Qed.

(** The put of the create step on a fresh rotation. *)
Lemma create_secret_puts_only_when_absent_witness :
  ask Fake.handle (GetSecretValue "secret" (Some "new") "AWSPENDING")
    (next Fake.handle (GetSecretValue "secret" None "AWSCURRENT") Fake.fresh)
    = Raised ResourceNotFoundException /\
  exists s text,
    ask Fake.handle (GetSecretValue "secret" None "AWSCURRENT") Fake.fresh = Ok (Some s) /\
    PutSecretValue "secret" "new"
      (payload_text "k0000000000000b" "k0000000000000c" "Ab1Bc2Cd3De4Ef59") ["AWSPENDING"] =
    PutSecretValue "secret" "new" text ["AWSPENDING"] /\
    (modelled s ->
     exists old v2 v3 k,
       loads s = Ok old /\
       subscript old "key2" = Ok v2 /\
       subscript old "key3" = Ok v3 /\
       is_key k /\
       text = replace backslash "" (dumps (JObj [("key1", v2); ("key2", v3); ("key3", JStr k)]))).
Proof.
  apply (create_secret_puts_only_when_absent Fake.handle "secret" "new" Fake.fresh).
  - found.
  - reflexivity.
Defined.

(** X6.  Two create steps in a row, the second reading as current what the first
    stored: the payload stored by the second holds the old third slot, the
    first generated key and a second generated key. *)
Theorem create_secret_chains_twice {W} (E : env W) (w : W) (sid token s : string)
  (old : json) (b c : string) :
  ask E (GetSecretValue sid None "AWSCURRENT") w = Ok (Some s) ->
  loads s = Ok old ->
  subscript old "key2" = Ok (JStr b) ->
  subscript old "key3" = Ok (JStr c) ->
  ask E (GetSecretValue sid (Some token) "AWSPENDING")
    (next E (GetSecretValue sid None "AWSCURRENT") w) = Raised ResourceNotFoundException ->
  all_chars unescaped b = true ->
  all_chars unescaped c = true ->
  exists k1 stored1,
    is_key k1 /\
    In (PutSecretValue sid token stored1 ["AWSPENDING"]) (calls (run E (create_secret sid token) w)) /\
    forall w' token',
      ask E (GetSecretValue sid None "AWSCURRENT") w' = Ok (Some stored1) ->
      ask E (GetSecretValue sid (Some token') "AWSPENDING")
        (next E (GetSecretValue sid None "AWSCURRENT") w') = Raised ResourceNotFoundException ->
      exists k2 stored2,
        is_key k2 /\
        In (PutSecretValue sid token' stored2 ["AWSPENDING"])
           (calls (run E (create_secret sid token') w')) /\
        loads stored2 = Ok (payload_of c k1 k2).
Proof.
  intros Hcur Hloads Hk2 Hk3 Hpend Hb Hc.
  destruct (create_secret_fresh E sid token s old (JStr b) (JStr c) w Hcur Hloads Hk2 Hk3 Hpend)
    as (k1 & _ & Hkey1 & Hcalls1).
  assert (Hu1 : all_chars unescaped k1 = true) by (apply plain_all_unescaped, key_plain, Hkey1).
  exists k1, (payload_text b c k1). split; [exact Hkey1 |]. split.
  - rewrite Hcalls1. fold (payload_of b c k1). rewrite stored_text by assumption.
    apply in_or_app. right. apply in_or_app. right. left. reflexivity.
  - intros w' token' Hcur' Hpend'.
    destruct (create_secret_fresh E sid token' (payload_text b c k1) (payload_of b c k1)
                (JStr c) (JStr k1) w' Hcur' (loads_payload_text b c k1 Hb Hc Hu1)
                eq_refl eq_refl Hpend')
      as (k2 & _ & Hkey2 & Hcalls2).
    assert (Hu2 : all_chars unescaped k2 = true) by (apply plain_all_unescaped, key_plain, Hkey2).
    exists k2, (payload_text c k1 k2). split; [exact Hkey2 |]. split.
    + rewrite Hcalls2. fold (payload_of c k1 k2). rewrite stored_text by assumption.
      apply in_or_app. right. apply in_or_app. right. left. reflexivity.
    + apply loads_payload_text; assumption.
Qed.

(** Two create steps from a payload of generated keys. *)
Lemma create_secret_chains_twice_witness :
  exists k1 stored1,
    is_key k1 /\
    In (PutSecretValue "secret" "new" stored1 ["AWSPENDING"])
       (calls (run Fake.handle (create_secret "secret" "new") Fake.fresh)) /\
    forall w' token',
      ask Fake.handle (GetSecretValue "secret" None "AWSCURRENT") w' = Ok (Some stored1) ->
      ask Fake.handle (GetSecretValue "secret" (Some token') "AWSPENDING")
        (next Fake.handle (GetSecretValue "secret" None "AWSCURRENT") w')
        = Raised ResourceNotFoundException ->
      exists k2 stored2,
        is_key k2 /\
        In (PutSecretValue "secret" token' stored2 ["AWSPENDING"])
           (calls (run Fake.handle (create_secret "secret" token') w')) /\
        loads stored2 = Ok (payload_of "k0000000000000c" k1 k2).
Proof.
  apply (create_secret_chains_twice Fake.handle Fake.fresh "secret" "new"
           (Fake.payload "k0000000000000a" "k0000000000000b" "k0000000000000c")
           (payload_of "k0000000000000a" "k0000000000000b" "k0000000000000c")
           "k0000000000000b" "k0000000000000c");
    reflexivity.
Defined.

(** X7.  The finish step when the first holder of AWSCURRENT is not the token: it
    moves the label from that holder (from none, when there is no holder)
    to the token, and returns 0 or raises what the move raises. *)
Theorem finish_secret_moves_current {W} (E : env W) (sid token s : string)
  (metadata : SecretMetadata) (w : W) :
  ask E (GetSecretValue sid None "AWSPENDING") w = Ok (Some s) ->
  ask E (DescribeSecret sid) (next E (GetSecretValue sid None "AWSPENDING") w) = Ok metadata ->
  NoDup (List.map fst (VersionIdsToStages metadata)) ->
  first_holder "AWSCURRENT" (VersionIdsToStages metadata) <> Some token ->
  let move := UpdateSecretVersionStage sid "AWSCURRENT" token
                (first_holder "AWSCURRENT" (VersionIdsToStages metadata)) in
  let w2 := next E (DescribeSecret sid) (next E (GetSecretValue sid None "AWSPENDING") w) in
  calls (run E (finish_secret sid token) w) =
    [GetSecretValue sid None "AWSPENDING"; DescribeSecret sid; move] /\
  result (run E (finish_secret sid token) w) =
    match ask E move w2 with
    | Ok _ => Ok (Some 0%Z)
    | Raised e => Raised e
    end.
Proof.
  intros Hget Hdesc Hnd Hother move w2. subst move w2.
  unfold finish_secret. run_step. rewrite Hget. run_step. rewrite Hdesc. run_step.
  rewrite (scan_versions_first token _ (VersionIdsToStages metadata) Hnd) by auto.
  unfold first_holder in *.
  destruct (List.find (holds "AWSCURRENT") (VersionIdsToStages metadata)) as [[version stages] |];
    cbn [option_map fst] in *.
  - destruct (String.eqb version token) eqn:Heq.
    + apply String.eqb_eq in Heq. congruence.
    + run_step.
      destruct (ask E (UpdateSecretVersionStage sid "AWSCURRENT" token (Some version)) _);
        split; reflexivity.
  - run_step.
    destruct (ask E (UpdateSecretVersionStage sid "AWSCURRENT" token None) _);
      split; reflexivity.
Qed.

(** The finish step of a rotation: the label moves from [old] to [new]. *)
Lemma finish_secret_moves_current_witness :
  calls (run Fake.handle (finish_secret "secret" "new") (pending_with (Fake.payload "b" "c" "k"))) =
    [GetSecretValue "secret" None "AWSPENDING"; DescribeSecret "secret";
     UpdateSecretVersionStage "secret" "AWSCURRENT" "new" (Some "old")] /\
  result (run Fake.handle (finish_secret "secret" "new") (pending_with (Fake.payload "b" "c" "k"))) =
    Ok (Some 0%Z).
Proof.
  apply (finish_secret_moves_current Fake.handle "secret" "new" (Fake.payload "b" "c" "k")
           {| RotationEnabled := true;
              VersionIdsToStages := Fake.versions (pending_with (Fake.payload "b" "c" "k")) |}).
  - reflexivity.
  - reflexivity.
  - apply NoDup_ListNoDup. vm_compute. repeat constructor; simpl; intuition discriminate.
  - discriminate.
Defined.

(** X8.  The calls of the finish step, and at most one move among them. *)
Theorem finish_secret_only_moves_current {W} (E : env W) (sid token : string) (w : W) :
  Forall (finish_call sid token) (calls (run E (finish_secret sid token) w)) /\
  length (List.filter is_stage_move (calls (run E (finish_secret sid token) w))) <= 1.
Proof.
  split; [apply finish_secret_calls |].
  unfold finish_secret. run_step.
  destruct (ask E (GetSecretValue sid None "AWSPENDING") w) as [[s |] | e];
    cbn [result trace final]; try (simpl; lia).
  run_step.
  destruct (ask E (DescribeSecret sid) _) as [md | e]; cbn [result trace final]; try (simpl; lia).
  run_step.
  destruct (scan_versions _ _ _) as [[| cv] | e]; cbn [result trace final run]; try (simpl; lia).
  run_step.
  destruct (ask E (UpdateSecretVersionStage _ _ _ _) _); simpl; lia.
Qed.

(** X9.  The entry point hands over to the handler that the step names, whatever
    the case of its letters: the calls that follow the validation are the
    handler's, and the handler's exception, if any, is the entry point's. *)
Theorem lambda_handler_dispatch {W} (E : env W) (w : W) (event : Event)
  (metadata : SecretMetadata) (stages : list string) :
  ask E (DescribeSecret (SecretId event)) w = Ok metadata ->
  RotationEnabled metadata = true ->
  dict_get (token_of event) (VersionIdsToStages metadata) = Some stages ->
  list_mem "AWSCURRENT" stages = false ->
  list_mem "AWSPENDING" stages = true ->
  let sid := SecretId event in
  let token := token_of event in
  let w1 := next E (DescribeSecret sid) w in
  let r := run E (lambda_handler event tt) w in
  (lower (Step event) = "createsecret" -> dispatched E r sid (create_secret sid token) w1) /\
  (lower (Step event) = "setsecret" -> dispatched E r sid (set_secret sid token) w1) /\
  (lower (Step event) = "testsecret" -> dispatched E r sid (test_secret sid token) w1) /\
  (lower (Step event) = "finishsecret" -> dispatched E r sid (finish_secret sid token) w1).
Proof.
  intros Hask Hrot Hget Hcur Hpend sid token w1 r. subst r sid token w1. unfold dispatched.
  rewrite (lambda_handler_dispatched E event metadata stages w Hask Hrot Hget Hcur Hpend).
  split; [| split; [| split]]; intros Hstep; rewrite Hstep; cbn [String.eqb Ascii.eqb Bool.eqb];
    rewrite ?calls_after; cbn [result after ev_call];
    (split; [f_equal |]; apply run_dispatched).
Qed.

(** The step in capital letters. *)
Lemma lambda_handler_dispatch_witness :
  dispatched Fake.handle
    (run Fake.handle (lambda_handler (Fake.event_for "CREATESECRET" "new") tt) Fake.fresh)
    "secret" (create_secret "secret" "new")
    (next Fake.handle (DescribeSecret "secret") Fake.fresh).
Proof.
  apply (proj1 (lambda_handler_dispatch Fake.handle Fake.fresh (Fake.event_for "CREATESECRET" "new")
                  {| RotationEnabled := true; VersionIdsToStages := Fake.versions Fake.fresh |}
                  ["AWSPENDING"] eq_refl eq_refl eq_refl eq_refl eq_refl)).
  reflexivity.
Defined.

(** X10.  A write of the entry point comes after the validation passed, and
    belongs to the step the event names: a put to the create step, a rule
    update to the set step, a stage move to the finish step. *)
Theorem writes_belong_to_steps {W} (E : env W) (w : W) (event : Event) (c : call) :
  In c (calls (run E (lambda_handler event tt) w)) -> is_write c = true ->
  validated E event w /\
  (is_put c = true -> lower (Step event) = "createsecret") /\
  (is_modify c = true -> lower (Step event) = "setsecret") /\
  (is_stage_move c = true -> lower (Step event) = "finishsecret").
Proof.
  rewrite lambda_handler_validation, calls_after. cbn [ev_call].
  intros [<- | Hin] Hw; [discriminate Hw |]. revert Hin.
  unfold validated.
  destruct (ask E (DescribeSecret (SecretId event)) w) as [metadata | e]; [| intros []].
  destruct (RotationEnabled metadata) eqn:Hrot; cbn [negb]; [| intros []].
  destruct (dict_get (token_of event) (VersionIdsToStages metadata)) as [stages |] eqn:Hget;
    [| intros []].
  destruct (list_mem "AWSCURRENT" stages) eqn:Hcur; [intros [] |].
  destruct (list_mem "AWSPENDING" stages) eqn:Hpend; cbn [negb]; [| intros []].
  intros Hin. split; [exists metadata, stages; repeat split; assumption |]. revert Hin.
  destruct (String.eqb (lower (Step event)) "createsecret") eqn:H1.
  { rewrite (proj1 (run_dispatched E _ _)). intros Hin.
    pose proof (create_secret_calls E (SecretId event) (token_of event)
                  (next E (DescribeSecret (SecretId event)) w)) as Hall.
    rewrite List.Forall_forall in Hall. destruct (create_call_writes _ _ _ (Hall c Hin)) as [-> ->].
    apply String.eqb_eq in H1. repeat split; (discriminate || (intros _; exact H1)). }
  destruct (String.eqb (lower (Step event)) "setsecret") eqn:H2.
  { rewrite (proj1 (run_dispatched E _ _)). intros Hin.
    destruct (set_secret_calls E (SecretId event) (token_of event)
                (next E (DescribeSecret (SecretId event)) w)) as (rest & Hcalls & Hall).
    rewrite Hcalls in Hin. apply String.eqb_eq in H2.
    destruct Hin as [<- | Hin]; [repeat split; discriminate |].
    rewrite List.Forall_forall in Hall. destruct (sync_call_writes _ (Hall c Hin)) as [-> ->].
    repeat split; (discriminate || (intros _; exact H2)). }
  destruct (String.eqb (lower (Step event)) "testsecret") eqn:H3.
  { rewrite (proj1 (run_dispatched E _ _)). intros Hin.
    pose proof (test_secret_calls E (SecretId event) (token_of event)
                  (next E (DescribeSecret (SecretId event)) w)) as Hall.
    rewrite List.Forall_forall in Hall. pose proof (staged_read_writes _ _ (Hall c Hin)) as Hw'.
    congruence. }
  destruct (String.eqb (lower (Step event)) "finishsecret") eqn:H4.
  { rewrite (proj1 (run_dispatched E _ _)). intros Hin.
    pose proof (finish_secret_calls E (SecretId event) (token_of event)
                  (next E (DescribeSecret (SecretId event)) w)) as Hall.
    rewrite List.Forall_forall in Hall. destruct (finish_call_writes _ _ _ (Hall c Hin)) as [-> ->].
    apply String.eqb_eq in H4. repeat split; (discriminate || (intros _; exact H4)). }
  rewrite run_bind. unfold seq_result. cbn [run result trace final calls List.map app].
  intros [].
Qed.

(** The put of a create step. *)
Lemma writes_belong_to_steps_witness :
  validated Fake.handle (Fake.event_for "CreateSecret" "new") Fake.fresh /\
  (is_put (PutSecretValue "secret" "new"
             (payload_text "k0000000000000b" "k0000000000000c" "Ab1Bc2Cd3De4Ef59") ["AWSPENDING"]) = true ->
   lower "CreateSecret" = "createsecret") /\
  (is_modify (PutSecretValue "secret" "new"
             (payload_text "k0000000000000b" "k0000000000000c" "Ab1Bc2Cd3De4Ef59") ["AWSPENDING"]) = true ->
   lower "CreateSecret" = "setsecret") /\
  (is_stage_move (PutSecretValue "secret" "new"
             (payload_text "k0000000000000b" "k0000000000000c" "Ab1Bc2Cd3De4Ef59") ["AWSPENDING"]) = true ->
   lower "CreateSecret" = "finishsecret").
Proof.
  apply (writes_belong_to_steps Fake.handle Fake.fresh (Fake.event_for "CreateSecret" "new")).
  - found.
  - reflexivity.
Defined.

(** X11.  Rotation is not enabled: the entry point raises the error of line 313
    after the one [DescribeSecret] call, whatever the step and the token. *)
Theorem rotation_disabled_rejected {W} (E : env W) (w : W) (event : Event)
  (metadata : SecretMetadata) :
  ask E (DescribeSecret (SecretId event)) w = Ok metadata ->
  RotationEnabled metadata = false ->
  calls (run E (lambda_handler event tt) w) = [DescribeSecret (SecretId event)] /\
  result (run E (lambda_handler event tt) w) =
    Raised (ValueError (not_enabled_message (SecretId event))).
Proof.
  intros Hask Hrot. rewrite lambda_handler_validation, Hask, Hrot. split; reflexivity.
Qed.

(** A create step on a secret whose rotation is not enabled. *)
Lemma rotation_disabled_rejected_witness :
  calls (run Fake.handle (lambda_handler (Fake.event_for "createSecret" "new") tt) Fake.disabled)
    = [DescribeSecret "secret"] /\
  result (run Fake.handle (lambda_handler (Fake.event_for "createSecret" "new") tt) Fake.disabled)
    = Raised (ValueError "Secret secret is not enabled for rotation").
Proof.
  apply (rotation_disabled_rejected Fake.handle Fake.disabled (Fake.event_for "createSecret" "new")
           {| RotationEnabled := false; VersionIdsToStages := Fake.versions Fake.disabled |});
    reflexivity.
Defined.

(** X12.  Rotation is enabled and the token, which is in the version map,
    carries neither label: the entry point raises the error of line 331
    after the one [DescribeSecret] call. *)
Theorem unstaged_version_rejected {W} (E : env W) (w : W) (event : Event)
  (metadata : SecretMetadata) (stages : list string) :
  ask E (DescribeSecret (SecretId event)) w = Ok metadata ->
  RotationEnabled metadata = true ->
  dict_get (token_of event) (VersionIdsToStages metadata) = Some stages ->
  list_mem "AWSCURRENT" stages = false ->
  list_mem "AWSPENDING" stages = false ->
  calls (run E (lambda_handler event tt) w) = [DescribeSecret (SecretId event)] /\
  result (run E (lambda_handler event tt) w) =
    Raised (ValueError (not_pending_message (token_of event) (SecretId event))).
Proof.
  intros Hask Hrot Hget Hcur Hpend.
  rewrite lambda_handler_validation, Hask, Hrot, Hget, Hcur, Hpend. split; reflexivity.
Qed.

(** A token labelled AWSPREVIOUS only. *)
Lemma unstaged_version_rejected_witness :
  calls (run Fake.handle (lambda_handler (Fake.event_for "finishSecret" "older") tt) stale)
    = [DescribeSecret "secret"] /\
  result (run Fake.handle (lambda_handler (Fake.event_for "finishSecret" "older") tt) stale)
    = Raised (ValueError
        "Secret version older not set as AWSPENDING for rotation of secret secret.").
Proof.
  apply (unstaged_version_rejected Fake.handle stale (Fake.event_for "finishSecret" "older")
           {| RotationEnabled := true; VersionIdsToStages := Fake.versions stale |}
           ["AWSPREVIOUS"]);
    reflexivity.
Defined.

(** X13.  The set step on a payload written with apostrophes: after the
    replacement of line 244 it decodes, and the step goes on as
    [set_api_key_in_alb] on the third slot. *)
Theorem set_secret_accepts_apostrophes {W} (E : env W) (sid token a b c : string) (w : W) :
  all_chars plain a = true -> all_chars plain b = true -> all_chars plain c = true ->
  ask E (GetSecretValue sid None "AWSPENDING") w = Ok (Some (payload_repr a b c)) ->
  run E (set_secret sid token) w =
  after (Ev (GetSecretValue sid None "AWSPENDING") (SecretValue (Ok (Some (payload_repr a b c)))))
        (run E (set_api_key_in_alb (JStr c)) (next E (GetSecretValue sid None "AWSPENDING") w)).
Proof.
  intros Ha Hb Hc Hask. unfold set_secret. run_step. rewrite Hask. run_step.
  rewrite replace_repr by assumption.
  rewrite (replace_absent backslash).
  2:{ apply all_chars_payload_text; [reflexivity | | |];
        (eapply all_chars_impl; [| eassumption]; intros ch Hch;
         apply unescaped_no_backslash, plain_unescaped, Hch). }
  rewrite loads_payload_text by (apply plain_all_unescaped; assumption).
  run_step. change (subscript (payload_of a b c) "key3") with (Ok (JStr c)). run_step.
  pose proof (set_api_key_in_alb_result E (JStr c) (next E (GetSecretValue sid None "AWSPENDING") w)) as Hz.
  destruct (run E (set_api_key_in_alb (JStr c)) (next E (GetSecretValue sid None "AWSPENDING") w))
    as [t o f].
  unfold after. cbn [result trace final run app] in *.
  destruct o as [z | e]; cbn [result trace final run app].
  - rewrite (Hz z) by congruence. rewrite app_nil_r. reflexivity.
  - reflexivity.
Qed.

(** A pending payload written with apostrophes. *)
Lemma set_secret_accepts_apostrophes_witness :
  run Fake.handle (set_secret "secret" "new") (pending_with (payload_repr "a" "b" "newKey99")) =
  after (Ev (GetSecretValue "secret" None "AWSPENDING")
           (SecretValue (Ok (Some (payload_repr "a" "b" "newKey99")))))
        (run Fake.handle (set_api_key_in_alb (JStr "newKey99"))
           (next Fake.handle (GetSecretValue "secret" None "AWSPENDING")
              (pending_with (payload_repr "a" "b" "newKey99")))).
Proof.
  apply (set_secret_accepts_apostrophes Fake.handle "secret" "new" "a" "b" "newKey99"); reflexivity.
Defined.

(** X14.  A pending payload whose key3 is null: the set step reads it, calls nothing
    else and returns 0. *)
Theorem set_secret_null_key_is_silent {W} (E : env W) (sid token s : string) (v : json) (w : W) :
  ask E (GetSecretValue sid None "AWSPENDING") w = Ok (Some s) ->
  loads (replace backslash "" (replace apostrophe (String dquote "") s)) = Ok v ->
  subscript v "key3" = Ok JNull ->
  calls (run E (set_secret sid token) w) = [GetSecretValue sid None "AWSPENDING"] /\
  result (run E (set_secret sid token) w) = Ok 0%Z.
Proof.
  intros Hask Hloads Hkey. unfold set_secret. run_step. rewrite Hask. run_step.
  rewrite Hloads. run_step. rewrite Hkey. run_step. split; reflexivity.
Qed.

(** A pending payload with a null key3. *)
Lemma set_secret_null_key_is_silent_witness :
  calls (run Fake.handle (set_secret "secret" "new")
           (pending_with (dumps (JObj [("key1", JStr "a"); ("key2", JStr "b"); ("key3", JNull)]))))
    = [GetSecretValue "secret" None "AWSPENDING"] /\
  result (run Fake.handle (set_secret "secret" "new")
           (pending_with (dumps (JObj [("key1", JStr "a"); ("key2", JStr "b"); ("key3", JNull)]))))
    = Ok 0%Z.
Proof.
  apply (set_secret_null_key_is_silent Fake.handle "secret" "new"
           (dumps (JObj [("key1", JStr "a"); ("key2", JStr "b"); ("key3", JNull)]))
           (JObj [("key1", JStr "a"); ("key2", JStr "b"); ("key3", JNull)]));
    reflexivity.
Defined.

(** X15.  The set step reaches the load balancers only after the pending
    payload was read; and when the text it decodes is one the decoder reads
    as [json.loads] does, that text decoded and holds a key3 that is not
    null. *)
Theorem set_secret_needs_key {W} (E : env W) (sid token : string) (w : W) (c : call) :
  In c (calls (run E (set_secret sid token) w)) -> sync_call c ->
  exists s,
    ask E (GetSecretValue sid None "AWSPENDING") w = Ok (Some s) /\
    (modelled (replace backslash "" (replace apostrophe (String dquote "") s)) ->
     exists v key,
       loads (replace backslash "" (replace apostrophe (String dquote "") s)) = Ok v /\
       subscript v "key3" = Ok key /\ key <> JNull).
Proof.
  unfold set_secret. run_step.
  destruct (ask E (GetSecretValue sid None "AWSPENDING") w) as [[s |] | e];
    cbn [result trace final];
    try (intros [<- | []] []).
  run_step.
  destruct (loads _) as [v | e] eqn:Hloads; cbn [result trace final];
    try (unfold calls; cbn [trace List.map app ev_call]; intros [<- | []] []).
  run_step.
  destruct (subscript v "key3") as [key | e] eqn:Hkey; cbn [result trace final];
    try (unfold calls; cbn [trace List.map app ev_call]; intros [<- | []] []).
  intros Hin Hc. exists s. split; [reflexivity |]. intros _. exists v, key.
  repeat split; try assumption.
  intros ->. revert Hin. run_step. unfold calls. cbn [run trace List.map app ev_call].
  intros [<- | []]. destruct Hc.
Qed.

(** The set step of a rotation queries the load balancers. *)
Lemma set_secret_needs_key_witness :
  exists s,
    ask Fake.handle (GetSecretValue "secret" None "AWSPENDING")
      (pending_with (payload_text "a" "b" "newKey99")) = Ok (Some s) /\
    (modelled (replace backslash "" (replace apostrophe (String dquote "") s)) ->
     exists v key,
       loads (replace backslash "" (replace apostrophe (String dquote "") s)) = Ok v /\
       subscript v "key3" = Ok key /\ key <> JNull).
Proof.
  apply (set_secret_needs_key Fake.handle "secret" "new"
           (pending_with (payload_text "a" "b" "newKey99")) DescribeLoadBalancers).
  - found.
  - exact I.
Defined.

(** X16.  The name filter of lines 116-131: a load balancer is taken when ALBNAME
    occurs in its name, and skipped with no call otherwise; an empty or
    unset ALBNAME occurs in every name. *)
Theorem update_alb_filter {W} (E : env W) (key : json) (alb : LoadBalancer) (w : W) :
  let name_filter := alb_filter (ask E (GetEnv "ALBNAME") w) in
  let r := run E (update_alb key alb) w in
  (contains name_filter (LoadBalancerName alb) = true ->
   exists rest,
     calls r = GetEnv "ALBNAME" :: DescribeListeners (LoadBalancerArn alb) :: rest) /\
  (contains name_filter (LoadBalancerName alb) = false ->
   calls r = [GetEnv "ALBNAME"] /\ result r = Ok tt) /\
  (name_filter = "" -> contains name_filter (LoadBalancerName alb) = true).
Proof.
  intros name_filter r. subst r. unfold update_alb, environ_get, describe_listeners.
  rewrite run_bind, run_vis. unfold seq_result. cbn [after result trace final run].
  fold (alb_filter (ask E (GetEnv "ALBNAME") w)). fold name_filter.
  split; [| split].
  - intros Hc. rewrite Hc.
    destruct (String.eqb name_filter ""); cbn [app];
      rewrite run_bind, run_vis; unfold seq_result, calls; cbn [after result trace final];
      match goal with |- context [match ?o with Ok _ => _ | Raised _ => _ end] => destruct o end;
      cbn [trace List.map app ev_call]; eexists; reflexivity.
  - intros Hc. rewrite Hc.
    destruct (String.eqb name_filter "") eqn:He.
    + apply String.eqb_eq in He. rewrite He, contains_empty in Hc. discriminate.
    + split; reflexivity.
  - intros ->. apply contains_empty.
Qed.

(** The filter [back] does not occur in the name [front]. *)
Lemma update_alb_filter_witness :
  calls (run Fake.handle (update_alb (JStr "newKey99")
           {| LoadBalancerName := "front"; LoadBalancerArn := "alb/front" |}) (filtered "back"))
    = [GetEnv "ALBNAME"] /\
  result (run Fake.handle (update_alb (JStr "newKey99")
           {| LoadBalancerName := "front"; LoadBalancerArn := "alb/front" |}) (filtered "back"))
    = Ok tt.
Proof.
  apply (proj1 (proj2 (update_alb_filter Fake.handle (JStr "newKey99")
           {| LoadBalancerName := "front"; LoadBalancerArn := "alb/front" |} (filtered "back")))).
  reflexivity.
Defined.

(** X17.  The loop of lines 151-166 gets through a list of conditions exactly when
    each condition on http-header carries its configuration and each
    condition on the sentinel header carries values.  When it does not, it
    raises a KeyError, and the loop body on a rule that is not a default
    rule and has these conditions raises that KeyError without a call. *)
Theorem update_conditions_succeeds_iff_well_formed (key : json) (conditions : list RuleCondition) :
  is_ok (update_conditions key conditions) = forallb well_formed conditions /\
  (forallb well_formed conditions = false ->
   exists name,
     update_conditions key conditions = Raised (KeyError name) /\
     forall W (E : env W) (w : W) (rule : Rule),
       IsDefault rule = false -> Conditions rule = conditions ->
       calls (run E (update_rule key rule) w) = [] /\
       result (run E (update_rule key rule) w) = Raised (KeyError name)).
Proof.
  assert (Hiff : is_ok (update_conditions key conditions) = forallb well_formed conditions).
  { rewrite update_conditions_pointwise.
    induction conditions as [| c rest IH]; simpl; [reflexivity |].
    rewrite <- rewrite_one_ok with (key := key), <- IH.
    destruct (rewrite_one key c); [| reflexivity].
    destruct (rewrite_all key rest); reflexivity. }
  split; [exact Hiff |].
  intros Hbad. rewrite <- Hiff in Hbad.
  destruct (update_conditions key conditions) as [updated | e] eqn:Hup; [discriminate Hbad |].
  rewrite update_conditions_pointwise in Hup.
  destruct (rewrite_all_raises key conditions e Hup) as (name & ->).
  exists name. split; [reflexivity |].
  intros W E w rule Hdef Hconds.
  rewrite run_update_rule, Hdef, Hconds, update_conditions_pointwise, Hup. split; reflexivity.
Qed.

(** A condition on [http-header] that has no configuration. *)
Lemma update_conditions_succeeds_iff_well_formed_witness :
  exists name,
    update_conditions (JStr "newKey99") [Fake.path_condition "/api/*"; bare_header_condition]
      = Raised (KeyError name) /\
    forall W (E : env W) (w : W) (rule : Rule),
      IsDefault rule = false ->
      Conditions rule = [Fake.path_condition "/api/*"; bare_header_condition] ->
      calls (run E (update_rule (JStr "newKey99") rule) w) = [] /\
      result (run E (update_rule (JStr "newKey99") rule) w) = Raised (KeyError name).
Proof.
  apply (proj2 (update_conditions_succeeds_iff_well_formed (JStr "newKey99")
                  [Fake.path_condition "/api/*"; bare_header_condition])).
  reflexivity.
Defined.

(** X18.  The loop of lines 151-166 applied twice: the second key wins, the same
    key again changes nothing, and the list keeps its length. *)
Theorem update_conditions_last_key_wins (k1 k2 : json) (conditions updated : list RuleCondition) :
  update_conditions k1 conditions = Ok updated ->
  update_conditions k2 updated = update_conditions k2 conditions /\
  update_conditions k1 updated = Ok updated /\
  length updated = length conditions.
Proof.
  rewrite !update_conditions_pointwise. revert updated.
  assert (Hgen : forall k updated, rewrite_all k1 conditions = Ok updated ->
                                   rewrite_all k updated = rewrite_all k conditions /\
                                   length updated = length conditions).
  { intros k. induction conditions as [| c rest IH]; intros updated; simpl.
    - intros [= <-]. split; reflexivity.
    - destruct (rewrite_one k1 c) as [c1 |] eqn:Hc; [| discriminate].
      destruct (rewrite_all k1 rest) as [rest1 |] eqn:Hrest; [| discriminate].
      intros [= <-]. simpl. rewrite (rewrite_one_again k1 k c c1 Hc).
      destruct (IH rest1 eq_refl) as [-> ->]. split; reflexivity. }
  intros updated H. destruct (Hgen k2 updated H) as [H2 Hlen].
  destruct (Hgen k1 updated H) as [H1 _]. rewrite H1. auto.
Qed.

(** The conditions of a rule, rewritten twice. *)
Lemma update_conditions_last_key_wins_witness :
  update_conditions (JStr "second") [Fake.path_condition "/api/*"; Fake.api_key_condition ["first"]] =
  update_conditions (JStr "second") (Conditions Fake.api_rule) /\
  update_conditions (JStr "first") [Fake.path_condition "/api/*"; Fake.api_key_condition ["first"]] =
  Ok [Fake.path_condition "/api/*"; Fake.api_key_condition ["first"]] /\
  length [Fake.path_condition "/api/*"; Fake.api_key_condition ["first"]] =
  length (Conditions Fake.api_rule).
Proof.
  apply (update_conditions_last_key_wins (JStr "first") (JStr "second") (Conditions Fake.api_rule)).
  reflexivity.
Defined.

(** X19.  The rule synchronizer stops at the first reply that raises: that call is
    the last of the run, the replies before it are normal ones, and the run
    raises the same exception. *)
Theorem synchronizer_fails_fast {W} (E : env W) (key : json) (w : W)
  (before after_it : list event) (ev : event) (e : exn) :
  trace (run E (set_api_key_in_alb key) w) = before ++ ev :: after_it ->
  raised_answer ev = Some e ->
  after_it = [] /\
  forallb answered before = true /\
  result (run E (set_api_key_in_alb key) w) = Raised e.
Proof.
  intros Htrace Hev.
  destruct (fails_fast_set_api_key_in_alb E key w) as [Hclean | (t & ev' & e' & Ht & Hclean & Hev' & Hres)].
  - rewrite Htrace, List.forallb_app in Hclean. simpl in Hclean.
    rewrite (raised_not_answered ev e Hev) in Hclean.
    rewrite andb_false_r in Hclean. discriminate.
  - rewrite Htrace in Ht.
    destruct after_it as [| x l] using rev_ind.
    + apply app_inj_tail in Ht as [-> ->]. rewrite Hev in Hev'. injection Hev' as <-.
      repeat split; assumption.
    + exfalso. clear IHl.
      change (before ++ ev :: l ++ [x]) with (before ++ (ev :: l) ++ [x]) in Ht.
      rewrite app_assoc in Ht. apply app_inj_tail in Ht as [<- _].
      rewrite List.forallb_app in Hclean. simpl in Hclean.
      rewrite (raised_not_answered ev e Hev) in Hclean.
      rewrite andb_false_r in Hclean. discriminate.
Qed.

(** The control plane refuses the first rule update. *)
Lemma synchronizer_fails_fast_witness :
  @nil event = [] /\
  forallb answered
    [Ev DescribeLoadBalancers (LoadBalancers (Ok (Some (Fake.load_balancers Fake.fresh))));
     Ev (GetEnv "ALBNAME") (EnvValue None);
     Ev (DescribeListeners "alb/front") (Listeners (Ok [{| ListenerArn := "listener/443" |}]));
     Ev (DescribeRules "listener/443")
        (Rules (Ok [Fake.api_rule; Fake.plain_rule; Fake.default_rule]))] = true /\
  result (run refusing (set_api_key_in_alb (JStr "newKey99")) Fake.fresh)
    = Raised (ClientError "Throttling").
Proof.
  apply (synchronizer_fails_fast refusing (JStr "newKey99") Fake.fresh _ _
           (Ev (ModifyRule "rule/api"
                  [Fake.path_condition "/api/*"; Fake.api_key_condition ["newKey99"]]
                  [Fake.forward "tg/api"])
               (Done (Raised (ClientError "Throttling"))))
           (ClientError "Throttling")).
  - reflexivity.
  - reflexivity.
Defined.

